(** * News harvesters: extraction, date normalisation and the harvest loops

    A shallow embedding of the five scraper modules
    ([akm.py], [finam.py], [interfax.py], [vedomosti_business.py],
    [vedomosti_economics.py]) and the properties their specification
    states about them.

    Conventions.
    - A Python [str] is a list of Unicode code points ([list N]), so that
      [len], slicing and substring tests count code points as Python does.
      Literals are written in UTF-8 and decoded by [u].
    - The parsed markup (what [BeautifulSoup(html, "html.parser")] hands to
      the code) is a tree of [Node]s; an element handle carries the chain of
      its ancestors, which is what [.parent] and [find_parent] walk.
    - The browser session is an oracle: every round of a harvest loop reads
      one record of observations (was the trigger clicked, the page source,
      the number of [time] elements, ...). A read inside a [try] may raise,
      which the record shows as [None]; the calls the code does not guard
      are taken to return.
    - Library tables that are not part of the repository (Unicode classes
      beyond ASCII, [html.unescape] on strings holding an ampersand,
      [urllib.parse.urljoin]) are the fields of the class [PyLib]; on ASCII
      everything is defined outright. *)

From Stdlib Require Import String Ascii NArith List Lia.
From stdpp Require Import base option list gmap sets.

Open Scope N_scope.

(** ** Python strings *)

Abbreviation str := (list N).

(** UTF-8 decoding of a literal: the bytes of a Rocq string to code points. *)
Fixpoint utf8_decode (bs : list N) : str :=
  match bs with
  | [] => []
  | b :: r =>
      if b <? 128 then b :: utf8_decode r
      else if b <? 224 then
        match r with
        | b1 :: r1 => ((b - 192) * 64 + (b1 - 128)) :: utf8_decode r1
        | _ => []
        end
      else if b <? 240 then
        match r with
        | b1 :: b2 :: r2 =>
            ((b - 224) * 4096 + (b1 - 128) * 64 + (b2 - 128)) :: utf8_decode r2
        | _ => []
        end
      else
        match r with
        | b1 :: b2 :: b3 :: r3 =>
            ((b - 240) * 262144 + (b1 - 128) * 4096 + (b2 - 128) * 64 + (b3 - 128))
              :: utf8_decode r3
        | _ => []
        end
  end.

Definition u (s : string) : str :=
  utf8_decode (map N_of_ascii (list_ascii_of_string s)).

#[global] Arguments u : simpl never.

(** [len(s)] *)
Definition len (s : str) : nat := length s.

(** [s == t] *)
Definition str_eqb (s t : str) : bool := bool_decide (s = t).

(** [s.startswith(p)] *)
Fixpoint startswith (p s : str) : bool :=
  match p, s with
  | [], _ => true
  | a :: p', b :: s' => (a =? b) && startswith p' s'
  | _ :: _, [] => false
  end.

(** [p in s] for strings: some suffix of [s] starts with [p]. *)
Fixpoint contains (p s : str) : bool :=
  startswith p s ||
  match s with
  | [] => false
  | _ :: s' => contains p s'
  end.

(** [c in s] for a single character. *)
Definition has_char (c : N) (s : str) : bool := existsb (N.eqb c) s.

(** [s.replace(a, b)] for single characters [a], [b]. *)
Definition replace_char (a b : N) (s : str) : str :=
  map (fun c => if c =? a then b else c) s.

(** [s[:n]] *)
Definition slice_to (n : nat) (s : str) : str := take n s.

(** [s[i:j]] for [0 <= i <= j]. *)
Definition slice (i j : nat) (s : str) : str := take (j - i) (drop i s).

(** [sep.join(parts)] *)
Fixpoint join (sep : str) (parts : list str) : str :=
  match parts with
  | [] => []
  | [p] => p
  | p :: rest => p ++ sep ++ join sep rest
  end.

(** [s.split(c)] for a one-character separator: never empty, one more part
    than there are separators. *)
Fixpoint split (c : N) (s : str) : list str :=
  match s with
  | [] => [[]]
  | a :: s' =>
      if a =? c then [] :: split c s'
      else match split c s' with
           | [] => [[a]]
           | p :: ps => (a :: p) :: ps
           end
  end.

(** [l[-2]]; [None] stands for the [IndexError] of a list shorter than 2. *)
Definition penultimate {A} (l : list A) : option A :=
  match rev l with
  | _ :: x :: _ => Some x
  | _ => None
  end.

(** [l[-1]] *)
Definition last_item {A} (l : list A) : option A := last l.

(** The characters [str.isspace] accepts (and [str.strip()] removes). *)
Definition isspace (c : N) : bool :=
  ((9 <=? c) && (c <=? 13)) || ((28 <=? c) && (c <=? 32)) ||
  (c =? 133) || (c =? 160) || (c =? 5760) ||
  ((8192 <=? c) && (c <=? 8202)) ||
  (c =? 8232) || (c =? 8233) || (c =? 8239) || (c =? 8287) || (c =? 12288).

Fixpoint lstrip (s : str) : str :=
  match s with
  | [] => []
  | c :: s' => if isspace c then lstrip s' else s
  end.

Definition rstrip (s : str) : str := rev (lstrip (rev s)).

(** [s.strip()] *)
Definition strip (s : str) : str := rstrip (lstrip s).

(** Whitespace-separated tokens: how the parser splits a [class] value. *)
Fixpoint words_aux (cur : str) (s : str) : list str :=
  match s with
  | [] => match cur with [] => [] | _ => [rev cur] end
  | c :: s' =>
      if isspace c
      then match cur with [] => words_aux [] s' | _ => rev cur :: words_aux [] s' end
      else words_aux (c :: cur) s'
  end.

Definition words (s : str) : list str := words_aux [] s.

(** The longest prefix whose characters all pass the test. *)
Fixpoint take_while (f : N -> bool) (s : str) : str :=
  match s with
  | [] => []
  | c :: s' => if f c then c :: take_while f s' else []
  end.

Definition is_ascii (c : N) : bool := c <? 128.

Definition ascii_digit (c : N) : bool := (48 <=? c) && (c <=? 57).

Definition ascii_upper (c : N) : bool := (65 <=? c) && (c <=? 90).

Definition ascii_lower (c : N) : bool := (97 <=? c) && (c <=? 122).

Definition ascii_alnum (c : N) : bool :=
  ascii_digit c || ascii_upper c || ascii_lower c.

Definition ascii_tolower (c : N) : N := if ascii_upper c then c + 32 else c.

(** ** Library tables outside the repository *)

(** What the code takes from Python's Unicode database, [html] and
    [urllib], beyond the ASCII range where the behaviour is written out
    below. No property of the fields is assumed. *)
Class PyLib := {
  (** [\d] on a non-ASCII character (general category Nd). *)
  unicode_decimal : N -> bool;
  (** [\w] on a non-ASCII character. *)
  unicode_word : N -> bool;
  (** [str.lower()] of a string holding a non-ASCII character. *)
  unicode_lower : str -> str;
  (** [re.IGNORECASE]: does the lower-case ASCII pattern letter (first)
      match the non-ASCII character (second)? *)
  unicode_caseless : N -> N -> bool;
  (** [html.unescape] of a string that holds an ampersand. *)
  html_unescape_refs : str -> str;
  (** [urllib.parse.urljoin(base, url)]. *)
  urljoin : str -> str -> str;
}.

Section PyStrings.
Context `{PyLib}.

(** [\d] *)
Definition re_d (c : N) : bool :=
  if is_ascii c then ascii_digit c else unicode_decimal c.

(** [\w] *)
Definition re_w (c : N) : bool :=
  if is_ascii c then ascii_alnum c || (c =? 95) else unicode_word c.

(** [s.lower()] *)
Definition lower (s : str) : str :=
  if forallb is_ascii s then map ascii_tolower s else unicode_lower s.

(** A pattern character [p] (lower-case ASCII) against the character [c]
    under [re.IGNORECASE]: a letter matches in either case, any other
    character matches itself only. *)
Definition ci_char (p c : N) : bool :=
  if ascii_lower p
  then if is_ascii c then ascii_tolower c =? p else unicode_caseless p c
  else c =? p.

(** A literal pattern matched at the start of [s] under [re.IGNORECASE]. *)
Fixpoint ci_startswith (p s : str) : bool :=
  match p, s with
  | [], _ => true
  | a :: p', b :: s' => ci_char a b && ci_startswith p' s'
  | _ :: _, [] => false
  end.

(** [re.search] of a literal pattern under [re.IGNORECASE]. *)
Fixpoint ci_contains (p s : str) : bool :=
  ci_startswith p s ||
  match s with
  | [] => false
  | _ :: s' => ci_contains p s'
  end.

(** [html.unescape(s)]: the identity unless [s] holds an ampersand. *)
Definition unescape (s : str) : str :=
  if has_char 38 s then html_unescape_refs s else s.
End PyStrings.

(** ** The parsed document *)

(** A node of the parse tree: a text node (a [NavigableString]) or a tag
    with its attribute dictionary (one entry per key) and its children.
    Comments, doctypes and the bodies of scripts and styles are strings
    [get_text] passes over and no [find] returns; they are left out. *)
#[warning="-register-all"] Inductive Node : Type :=
| Text (s : str)
| Tag (name : str) (attrs : list (str * str)) (children : list Node).

(** An element handle: the node and its ancestors, nearest first. The last
    ancestor is the document object itself. *)
Record Elem : Type := { node : Node; ancestors : list Node }.

(** The [BeautifulSoup] object made from the top-level nodes. *)
Definition soup_of (top : list Node) : Elem :=
  {| node := Tag (u "[document]") [] top; ancestors := [] |}.

(** [el.parent] *)
Definition parent (e : Elem) : option Elem :=
  match ancestors e with
  | [] => None
  | p :: up => Some {| node := p; ancestors := up |}
  end.

(** [el.parents]: nearest first. *)
Fixpoint parents_of (up : list Node) : list Elem :=
  match up with
  | [] => []
  | p :: up' => {| node := p; ancestors := up' |} :: parents_of up'
  end.

Definition parents (e : Elem) : list Elem := parents_of (ancestors e).

(** The element and everything below it, in document order. *)
Fixpoint subtree (up : list Node) (n : Node) : list Elem :=
  {| node := n; ancestors := up |} ::
  match n with
  | Text _ => []
  | Tag _ _ cs =>
      (fix below (l : list Node) : list Elem :=
         match l with
         | [] => []
         | c :: l' => subtree (n :: up) c ++ below l'
         end) cs
  end.

(** [el.descendants] *)
Definition descendants (e : Elem) : list Elem :=
  tail (subtree (ancestors e) (node e)).

Definition is_tag (name : str) (e : Elem) : bool :=
  match node e with
  | Tag n _ _ => str_eqb n name
  | Text _ => false
  end.

(** [el.get(key)] *)
Definition get_attr (key : str) (e : Elem) : option str :=
  match node e with
  | Tag _ attrs _ => snd <$> List.find (fun kv => str_eqb (fst kv) key) attrs
  | Text _ => None
  end.

(** [el.get(key, "")] and [el.get(key) or ""] *)
Definition get_attr_or_empty (key : str) (e : Elem) : str :=
  default [] (get_attr key e).

(** The attribute filter [key=True]. *)
Definition has_attr (key : str) (e : Elem) : bool :=
  bool_decide (is_Some (get_attr key e)).

(** The attribute filter [key=re.compile(...)]: the value exists and the
    pattern is found in it. *)
Definition attr_search (key : str) (m : str -> bool) (e : Elem) : bool :=
  match get_attr key e with
  | Some v => m v
  | None => false
  end.

(** The filter [class_=...]: [class] is multi-valued, so the test is tried
    on each token and then on the tokens joined by one space. *)
Definition class_matches (m : str -> bool) (e : Elem) : bool :=
  match get_attr (u "class") e with
  | Some v => let toks := words v in existsb m toks || m (join (u " ") toks)
  | None => false
  end.

(** [el.find_all(name, ...)] *)
Definition find_all (name : str) (flt : Elem -> bool) (e : Elem) : list Elem :=
  List.filter (fun d => is_tag name d && flt d) (descendants e).

(** [el.find(name, ...)] *)
Definition find_first (name : str) (flt : Elem -> bool) (e : Elem) : option Elem :=
  head (find_all name flt e).

(** [el.find_parent(class_=...)] *)
Definition find_parent (flt : Elem -> bool) (e : Elem) : option Elem :=
  head (List.filter flt (parents e)).

Definition no_filter (e : Elem) : bool := true.

(** The text nodes at or below the element, in document order. *)
Definition strings (e : Elem) : list str :=
  omap (fun d => match node d with Text s => Some s | Tag _ _ _ => None end)
       (subtree (ancestors e) (node e)).

(** [el.get_text(sep, strip=True)] *)
Definition get_text (sep : str) (e : Elem) : str :=
  join sep (List.filter (fun s => negb (str_eqb s [])) (map strip (strings e))).

(** ** News items and the accumulator *)

Record NewsItem : Type := { date : str; title : str }.

Definition key_of (it : NewsItem) : str * str := (date it, title it).

#[global] Instance NewsItem_eq_dec : EqDecision NewsItem.
Proof. solve_decision. Defined.

(** Truthiness of a string. *)
Definition truthy (s : str) : bool := negb (str_eqb s []).

(** [a or b] on strings. *)
Definition str_or (a b : str) : str := if truthy a then a else b.

(** ** The accumulator *)

(** The running list and the set of seen keys that every harvest loop (and
    the paginator of akm.py, and the final pass of finam.py) keeps. *)
Record Acc : Type := { collected : list NewsItem; seen : gset (str * str) }.

Definition empty_acc : Acc := {| collected := []; seen := ∅ |}.

(** One turn of the merge loop:
    [key = (item["date"], item["title"])]; [if key not in seen:]
    [seen.add(key)], [collected.append(item)], [added += 1]. *)
Definition merge_item (st : Acc * nat) (item : NewsItem) : Acc * nat :=
  let '(acc, added) := st in
  if bool_decide (key_of item ∈ seen acc) then (acc, added)
  else ({| collected := collected acc ++ [item];
           seen := {[ key_of item ]} ∪ seen acc |}, S added).

(** The merge of one extraction result: the accumulator after it and the
    number of items it added. *)
Definition merge (acc : Acc) (chunk : list NewsItem) : Acc * nat :=
  fold_left merge_item chunk (acc, 0%nat).

(** ** The harvest loops *)

(** How a turn of a [for] loop ends. *)
Inductive Flow : Type := Continue | Break.

(** [for round_num in range(n)] with [break]: the state after the loop and
    the number of turns that were started. [obs] lists what the browser
    shows in each turn. *)
Fixpoint for_rounds {St O : Type} (body : St -> O -> St * Flow) (st : St) (obs : list O)
  : St * nat :=
  match obs with
  | [] => (st, 0%nat)
  | o :: rest =>
      match body st o with
      | (st', Break) => (st', 1%nat)
      | (st', Continue) =>
          let '(st'', n) := for_rounds body st' rest in (st'', S n)
      end
  end.

(** The browser session: what it shows in turn [round_num]. *)
Definition rounds_of {O : Type} (driver : nat -> O) (max_clicks : nat) : list O :=
  map driver (seq 0 max_clicks).

(** [target_count and len(collected) >= target_count] *)
Definition target_reached (target_count : nat) (acc : Acc) : bool :=
  negb (target_count =? 0)%nat && (target_count <=? length (collected acc))%nat.

(** [a < n * 0.3], [a < n * 0.5] on counts: the doubles compare as the exact
    fractions do. *)
Definition below_30pct (a n : nat) : bool := (10 * a <? 3 * n)%nat.
Definition below_half (a n : nat) : bool := (2 * a <? n)%nat.

(** ** akm.py *)

Module Akm.
Section Extractor.
Context `{PyLib}.

(** [\b] between two neighbouring positions; a missing neighbour (either
    end of the string) counts as a non-word character. *)
Definition word_boundary (before after : option N) : bool :=
  xorb (from_option re_w false before) (from_option re_w false after).

(** [re.search] of [\bLIT\b] for a literal [LIT], scanning from the left
    with the character before the current position at hand. *)
Fixpoint search_word (lit : str) (before : option N) (s : str) : bool :=
  (startswith lit s
   && word_boundary before (head s)
   && word_boundary (last (from_option (fun c => [c]) [] before ++ lit))
                    (head (drop (length lit) s)))
  || match s with
     | [] => false
     | c :: s' => search_word lit (Some c) s'
     end.

(** [re.compile(r"\bb-section-item\b").search] *)
Definition re_b_section_item (s : str) : bool :=
  search_word (u "b-section-item") None s.

(** One turn of the [for item in items] loop of [get_akm_news]. *)
Definition akm_block (news_list : list NewsItem) (item : Elem) : list NewsItem :=
  match find_first (u "h3") (class_matches (str_eqb (u "b-section-item__title"))) item with
  | None => news_list
  | Some title_tag =>
      match find_first (u "a") no_filter title_tag with
      | None => news_list
      | Some link =>
          let title := get_text [] link in
          if negb (truthy title) then news_list
          else
            let date_text :=
              match find_first (u "div") (class_matches (str_eqb (u "b-section-item__meta"))) item with
              | None => []
              | Some meta =>
                  match last_item (find_all (u "span") no_filter meta) with
                  | None => []
                  | Some span => get_text [] span
                  end
              end in
            if truthy title && truthy date_text
            then news_list ++ [{| date := date_text; title := title |}]
            else news_list
      end
  end.

(** [get_akm_news(html_content)], on the parsed document. *)
Definition get_akm_news (top : list Node) : list NewsItem :=
  let soup := soup_of top in
  let items := find_all (u "div") (class_matches re_b_section_item) soup in
  fold_left akm_block items [].

End Extractor.
End Akm.

(** ** interfax.py *)

Module Interfax.
Section Extractor.
Context `{PyLib}.

(** [re.search] of [^LIT$]: the whole string, a final line feed allowed. *)
Definition re_whole (lit : str) (s : str) : bool :=
  str_eqb s lit || str_eqb s (lit ++ [10]).

(** The alternatives of [NEWS_HREF_PATTERN]. *)
Definition interfax_sections : list str :=
  [u "business"; u "world"; u "russia"; u "moscow"; u "digital"; u "news"; u "culture"].

(** [/(business|...|culture)/\d+] matched at the start of [s]. *)
Definition interfax_path (s : str) : bool :=
  existsb (fun sec =>
             let lit := u "/" ++ sec ++ u "/" in
             ci_startswith lit s
             && from_option re_d false (head (drop (length lit) s)))
          interfax_sections.

(** [[^/]+] followed by the path: the run of non-slash characters is not
    empty and the path starts where it ends. *)
Definition interfax_after_host (s : str) : bool :=
  let host := take_while (fun c => negb (c =? 47)) s in
  negb (str_eqb host []) && interfax_path (drop (length host) s).

(** [NEWS_HREF_PATTERN.search]:
    [^(?:https?://[^/]+)?/(business|world|russia|moscow|digital|news|culture)/\d+]
    with [re.I]. *)
Definition NEWS_HREF_PATTERN (s : str) : bool :=
  (ci_startswith (u "https://") s && interfax_after_host (drop 8 s))
  || (ci_startswith (u "http://") s && interfax_after_host (drop 7 s))
  || interfax_path s.

(** [datetime_val.replace("T", " ")[:16]] *)
Definition interfax_date (datetime_val : str) : str :=
  slice_to 16 (replace_char 84 32 datetime_val).

(** One turn of the inner loop of [extract_news_from_page]. *)
Definition interfax_time (result : list NewsItem) (time_el : Elem) : list NewsItem :=
  match parent time_el with
  | None => result
  | Some par =>
      match find_first (u "a") (attr_search (u "href") NEWS_HREF_PATTERN) par with
      | None => result
      | Some a =>
          let datetime_val := strip (get_attr_or_empty (u "datetime") time_el) in
          if negb (truthy datetime_val) then result
          else
            let date_str := interfax_date datetime_val in
            let title :=
              str_or (get_attr_or_empty (u "title") a)
                     (match find_first (u "h3") no_filter a with
                      | None => []
                      | Some h3 => get_text (u " ") h3
                      end) in
            let title := strip (unescape title) in
            if negb (truthy title) then result
            else result ++ [{| date := date_str; title := title |}]
      end
  end.

(** One turn of the outer loop: every [time] element of one timeline. *)
Definition interfax_timeline (result : list NewsItem) (timeline : Elem) : list NewsItem :=
  fold_left interfax_time (find_all (u "time") (has_attr (u "datetime")) timeline) result.

(** [extract_news_from_page(html_content)] *)
Definition extract_news_from_page (top : list Node) : list NewsItem :=
  let soup := soup_of top in
  let timelines := find_all (u "div") (class_matches (re_whole (u "timeline"))) soup in
  match timelines with
  | [] => []
  | _ => fold_left interfax_timeline timelines []
  end.

End Extractor.

Section Loop.
Context `{PyLib}.

(** What the browser shows in one turn: whether one of the two locators
    found and clicked the trigger, and [driver.page_source] ([None] when
    reading it raises, which the [try] swallows). *)
Record Round : Type := { load_more_clicked : bool; page_source : option (list Node) }.

Record State : Type := { acc : Acc; no_new_count : nat }.

Definition init : State := {| acc := empty_acc; no_new_count := 0 |}.

(** The body of [for round_num in range(max_clicks)]. *)
Definition round (target_count : nat) (st : State) (o : Round) : State * Flow :=
  let no_new_count :=
    if load_more_clicked o then no_new_count st else S (no_new_count st) in
  if negb (load_more_clicked o) && (3 <=? no_new_count)%nat
  then ({| acc := acc st; no_new_count := no_new_count |}, Break)
  else
    let st' :=
      match page_source o with
      | None => {| acc := acc st; no_new_count := no_new_count |}
      | Some html_content =>
          let chunk := extract_news_from_page html_content in
          let '(acc', added) := merge (acc st) chunk in
          {| acc := acc';
             no_new_count := if (0 <? added)%nat then 0%nat else no_new_count |}
      end in
    (st', if target_reached target_count (acc st') then Break else Continue).

(** The loop of [scroll_and_click_load_more] with the number of turns it
    started. *)
Definition harvest (driver : nat -> Round) (max_clicks target_count : nat) : State * nat :=
  for_rounds (round target_count) init (rounds_of driver max_clicks).

(** [scroll_and_click_load_more(driver, max_clicks, target_count)] *)
Definition scroll_and_click_load_more (driver : nat -> Round) (max_clicks target_count : nat)
  : list NewsItem :=
  collected (acc (fst (harvest driver max_clicks target_count))).

End Loop.
End Interfax.

(** ** finam.py *)

Module Finam.
Section Extractor.
Context `{PyLib}.

Definition BASE_URL : str := u "https://www.finam.ru/".

(** [(?:/|$)]: a slash follows, or the string ends here (a final line feed
    allowed, as [$] has it). *)
Definition slash_or_end (rest : str) : bool :=
  match rest with
  | [] => true
  | c :: rest' => (c =? 47) || ((c =? 10) && str_eqb rest' [])
  end.

(** [-([0-9]{8})-([0-9]{4})(?:/|$)] matched at the start of [s]: the two
    groups. *)
Definition match_date_token (s : str) : option (str * str) :=
  match s with
  | 45 :: r =>
      let yyyymmdd := take 8 r in
      if (length yyyymmdd =? 8)%nat && forallb ascii_digit yyyymmdd then
        match drop 8 r with
        | 45 :: r2 =>
            let hhmm := take 4 r2 in
            if (length hhmm =? 4)%nat && forallb ascii_digit hhmm
               && slash_or_end (drop 4 r2)
            then Some (yyyymmdd, hhmm) else None
        | _ => None
        end
      else None
  | _ => None
  end.

(** [re.search]: the leftmost position where the token matches. *)
Fixpoint search_date_token (s : str) : option (str * str) :=
  match match_date_token s with
  | Some g => Some g
  | None =>
      match s with
      | [] => None
      | _ :: s' => search_date_token s'
      end
  end.

(** [parse_datetime_from_url(url)] *)
Definition parse_datetime_from_url (url : str) : str :=
  match search_date_token url with
  | None => []
  | Some (yyyymmdd, hhmm) =>
      let year := slice 0 4 yyyymmdd in
      let month := slice 4 6 yyyymmdd in
      let day := slice 6 8 yyyymmdd in
      let hour := slice 0 2 hhmm in
      let minute := slice 2 4 hhmm in
      year ++ u "-" ++ month ++ u "-" ++ day ++ u " " ++ hour ++ u ":" ++ minute
  end.

(** [article_href_pattern.search]:
    [/publications/item/|bonds\.finam\.ru/(news|comments)/item/] with
    [re.IGNORECASE]. *)
Definition article_href_pattern (href : str) : bool :=
  ci_contains (u "/publications/item/") href
  || ci_contains (u "bonds.finam.ru/news/item/") href
  || ci_contains (u "bonds.finam.ru/comments/item/") href.

(** [s.split("/")[-2] if "/" in s else s]; with a slash in [s] the split has
    two parts at least, so the index is in range. *)
Definition url_segment (s : str) : str :=
  if has_char 47 s then default [] (penultimate (split 47 s)) else s.

(** [not text or len(text) < 5] *)
Definition too_short (text : str) : bool :=
  negb (truthy text) || (len text <? 5)%nat.

(** The visible text of an anchor with its three fallbacks: the parent's
    text, the [title] attribute, a segment of the link. *)
Definition finam_text (a_tag : Elem) (href : str) : str :=
  let text := get_text (u " ") a_tag in
  let text :=
    if too_short text then
      match parent a_tag with
      | Some par =>
          let parent_text := get_text (u " ") par in
          if (len text <? len parent_text)%nat && (10 <? len parent_text)%nat
          then parent_text else text
      | None => text
      end
    else text in
  let text :=
    if too_short text then
      let title_attr := get_attr_or_empty (u "title") a_tag in
      if truthy title_attr && (5 <? len title_attr)%nat then title_attr else text
    else text in
  if too_short text then url_segment href else text.

(** The navigation filter: a text under 20 characters that holds one of the
    "read more" phrases or an arrow. *)
Definition is_navigation (text : str) : bool :=
  let lower := lower text in
  (len text <? 20)%nat
  && (contains (u "читать далее") lower || contains (u "подробнее") lower
      || contains (u "→") text || contains (u ">") text).

(** An entry of the [articles] dictionary. *)
Record Info : Type := { a_url : str; a_date : str; a_title : str }.

(** [articles.get(full_url)]; the dictionary keeps its entries in the order
    of insertion. *)
Definition articles_get (articles : list Info) (full_url : str) : option Info :=
  List.find (fun i => str_eqb (a_url i) full_url) articles.

(** The title an entry keeps when the text [text] comes by:
    [len(text) > len(title) * 1.2] is [5 * len(text) > 6 * len(title)]
    (the product by the double 1.2 rounds to the exact value whenever that
    is an integer, and never crosses one otherwise). *)
Definition keep_title (kept text : str) : str :=
  if (len kept <? len text)%nat then
    if (6 * len kept <? 5 * len text)%nat || (len kept <? 10)%nat
    then text else kept
  else kept.

(** [info["title"] = ...] on the entry stored under [full_url]. *)
Definition articles_update (articles : list Info) (full_url text : str) : list Info :=
  map (fun i =>
         if str_eqb (a_url i) full_url
         then {| a_url := a_url i; a_date := a_date i; a_title := keep_title (a_title i) text |}
         else i)
      articles.

(** One turn of the loop over the anchors. *)
Definition finam_anchor (articles : list Info) (a_tag : Elem) : list Info :=
  let href := get_attr_or_empty (u "href") a_tag in
  if negb (article_href_pattern href) then articles
  else
    let full_url := urljoin BASE_URL href in
    let text := finam_text a_tag href in
    if is_navigation text then articles
    else
      let articles :=
        match articles_get articles full_url with
        | Some _ => articles
        | None =>
            articles ++ [{| a_url := full_url;
                            a_date := parse_datetime_from_url full_url;
                            a_title := [] |}]
        end in
      articles_update articles full_url text.

(** One turn of the loop over [articles.values()]. *)
Definition finam_emit (news_list : list NewsItem) (info : Info) : list NewsItem :=
  if truthy (a_title info)
  then news_list ++ [{| date := a_date info; title := a_title info |}]
  else news_list ++ [{| date := a_date info; title := url_segment (a_url info) |}].

(** The dictionary after the loop over the anchors. *)
Definition finam_articles (top : list Node) : list Info :=
  fold_left finam_anchor (find_all (u "a") (has_attr (u "href")) (soup_of top)) [].

(** [extract_news_from_page(html_content)] *)
Definition extract_news_from_page (top : list Node) : list NewsItem :=
  fold_left finam_emit (finam_articles top) [].

End Extractor.

Section Loop.
Context `{PyLib}.

(** The final pass of [main] ([uniq_news]). *)
Definition uniq_news (news_list : list NewsItem) : list NewsItem :=
  collected (fst (merge empty_acc news_list)).

(** What the browser shows in one turn: whether one of the four locators
    clicked the trigger, [document.body.scrollHeight], and the two counts of
    article links ([None] when the count raises; the second is read only
    after a click that brought nothing). *)
Record Round : Type := {
  load_more_clicked : bool;
  new_height : nat;
  current_count : option nat;
  current_count2 : option nat;
}.

Record State : Type := {
  last_height : nat;
  last_news_count : nat;
  same_height_count : nat;
}.

(** [target_count and count >= target_count] *)
Definition enough (target_count count : nat) : bool :=
  negb (target_count =? 0)%nat && (target_count <=? count)%nat.

(** The [try] of one turn: the two counters after it and whether it left the
    loop. *)
Definition count_links (target_count : nat) (st : State) (o : Round) : nat * nat * bool :=
  let unchanged := (last_news_count st, same_height_count st, false) in
  match current_count o with
  | None => unchanged
  | Some count =>
      if (last_news_count st <? count)%nat
      then (count, 0%nat, enough target_count count)
      else if load_more_clicked o then
        match current_count2 o with
        | None => unchanged
        | Some count2 =>
            if (count <? count2)%nat
            then (count2, 0%nat, enough target_count count2)
            else unchanged
        end
      else unchanged
  end.

(** The body of [for i in range(max_rounds)]. *)
Definition round (target_count : nat) (st : State) (o : Round) : State * Flow :=
  let '(news, same, stop) := count_links target_count st o in
  if stop
  then ({| last_height := last_height st; last_news_count := news;
           same_height_count := same |}, Break)
  else if (new_height o =? last_height st)%nat
  then
    let same := S same in
    ({| last_height := last_height st; last_news_count := news;
        same_height_count := same |},
     if (5 <=? same)%nat then Break else Continue)
  else
    ({| last_height := new_height o; last_news_count := news;
        same_height_count := 0 |}, Continue).

(** [scroll_and_load_all_news(driver, max_rounds, target_count)]: the state
    it ends in and the number of turns it started; [height0] is the scroll
    height read before the loop. *)
Definition scroll_and_load_all_news
    (height0 : nat) (driver : nat -> Round) (max_rounds target_count : nat) : State * nat :=
  for_rounds (round target_count)
             {| last_height := height0; last_news_count := 0; same_height_count := 0 |}
             (rounds_of driver max_rounds).

End Loop.
End Finam.

(** ** vedomosti_business.py and vedomosti_economics.py: the extractor *)

Module Vedomosti.
Section Extractor.
Context `{PyLib}.

(** [DATE_DOT_PATTERN.match]: [^(\d{2})\.(\d{2})\.(\d{4})$], the groups
    [(d, mon, y)]. *)
Definition DATE_DOT_PATTERN (s : str) : option (str * str * str) :=
  match s with
  | d1 :: d2 :: 46 :: m1 :: m2 :: 46 :: y1 :: y2 :: y3 :: y4 :: rest =>
      if forallb re_d [d1; d2; m1; m2; y1; y2; y3; y4]
         && (str_eqb rest [] || str_eqb rest [10])
      then Some ([d1; d2], [m1; m2], [y1; y2; y3; y4])
      else None
  | _ => None
  end.

(** [dot_date_to_iso(dot_date)] *)
Definition dot_date_to_iso (dot_date : str) : str :=
  match DATE_DOT_PATTERN (strip dot_date) with
  | None => dot_date
  | Some (d, mon, y) => y ++ u "-" ++ mon ++ u "-" ++ d
  end.

(** [re.match(r"^\d{4}-\d{2}-\d{2}", s)] *)
Definition iso_date_prefix (s : str) : bool :=
  match s with
  | y1 :: y2 :: y3 :: y4 :: 45 :: m1 :: m2 :: 45 :: d1 :: d2 :: _ =>
      forallb re_d [y1; y2; y3; y4; m1; m2; d1; d2]
  | _ => false
  end.

(** The date text of a [time] element:
    [(time_el.get("datetime") or time_el.get_text(strip=True) or "").strip()]. *)
Definition time_date_text (time_el : Elem) : str :=
  strip (str_or (get_attr_or_empty (u "datetime") time_el)
                (str_or (get_text [] time_el) [])).

(** The extractor's date normalisation: an ISO prefix is cut to the date,
    a dotted date is rewritten, anything else yields no date (the caller
    skips the element). *)
Definition vedomosti_date (date_text : str) : option str :=
  if iso_date_prefix date_text then Some (slice_to 10 date_text)
  else if bool_decide (is_Some (DATE_DOT_PATTERN date_text))
       then Some (dot_date_to_iso date_text)
       else None.

(** [any(x in href for x in ["#", "javascript:", "mailto:", "tel:"])] *)
Definition non_article_href (href : str) : bool :=
  existsb (fun x => contains x href)
          [u "#"; u "javascript:"; u "mailto:"; u "tel:"].

(** The title of an anchor:
    [html.unescape(a.get_text(" ", strip=True) or (a.get("title") or "")).strip()]. *)
Definition anchor_title (a : Elem) : str :=
  strip (unescape (str_or (get_text (u " ") a) (get_attr_or_empty (u "title") a))).

(** [not title or len(title) < 2] *)
Definition bad_title (title : str) : bool :=
  negb (truthy title) || (len title <? 2)%nat.

(** The three class patterns, each a plain [re.search]. *)
Definition re_card_kind (s : str) : bool :=
  contains (u "card-news-item") s || contains (u "card-mobile-news") s
  || contains (u "article-preview-item") s.

Definition re_card (s : str) : bool := contains (u "card") s.

Definition re_title_div (s : str) : bool :=
  contains (u "card-news-item__title") s || contains (u "article-preview-item__title") s.

(** [a or b] on optional elements. *)
Definition elem_or (a b : option Elem) : option Elem :=
  match a with Some _ => a | None => b end.

(** The accumulator of one extraction: the result and its [seen_keys]. *)
Record Parsed : Type := { result : list NewsItem; seen_keys : gset (str * str) }.

(** [if key not in seen_keys: seen_keys.add(key); result.append(...)] *)
Definition admit_item (p : Parsed) (date_iso title : str) : Parsed :=
  if bool_decide ((date_iso, title) ∈ seen_keys p) then p
  else {| result := result p ++ [{| date := date_iso; title := title |}];
          seen_keys := {[ (date_iso, title) ]} ∪ seen_keys p |}.

(** The paths that mark a link of the section: [/business/] and [/finance/]
    in one module, [/economics/] in the other. *)
Variable site_sections : list str.

Definition in_site_section (href : str) : bool :=
  existsb (fun sec => contains sec href) site_sections.

(** [is_news_link] *)
Definition is_news_link (href : str) : bool :=
  in_site_section href
  || contains (u "/news/") href
  || contains (u "/articles/") href
  || (startswith (u "/") href && (10 <? len href)%nat && negb (non_article_href href)).

(** The link of a [time] element: the title container of the card, any link
    of the card, then the first link below one of three ancestors. *)
Definition link_of_time (par : Elem) : option Elem :=
  let card :=
    match find_parent (class_matches re_card_kind) par with
    | Some c => c
    | None =>
        match find_parent (class_matches re_card) par with
        | Some c => c
        | None => par
        end
    end in
  let a :=
    match find_first (u "div") (class_matches re_title_div) card with
    | Some title_div => find_first (u "a") (has_attr (u "href")) title_div
    | None => None
    end in
  let a := elem_or a (find_first (u "a") (has_attr (u "href")) card) in
  match a with
  | Some _ => a
  | None =>
      let up1 := parent par in
      let up2 := up1 ≫= parent in
      fold_left (fun found ancestor =>
                   match found, ancestor with
                   | Some _, _ => found
                   | None, None => None
                   | None, Some anc => find_first (u "a") (has_attr (u "href")) anc
                   end)
                [Some par; up1; up2] None
  end.

(** Strategy 1, one turn of the loop over the [time] elements. *)
Definition from_time (p : Parsed) (time_el : Elem) : Parsed :=
  let date_text := time_date_text time_el in
  if negb (truthy date_text) then p
  else
    match vedomosti_date date_text with
    | None => p
    | Some date_iso =>
        match parent time_el with
        | None => p
        | Some par =>
            match link_of_time par with
            | None => p
            | Some a =>
                let href := get_attr_or_empty (u "href") a in
                if negb (truthy href) then p
                else if negb (is_news_link href) then p
                else
                  let title := anchor_title a in
                  if bad_title title then p
                  else admit_item p date_iso title
            end
        end
    end.

(** The [while current and level < max_levels] walk of strategy 2; [fuel]
    is [max_levels - level]. *)
Fixpoint nearest_date (fuel : nat) (current : option Elem) : option str :=
  match fuel, current with
  | S fuel', Some cur =>
      let found :=
        match find_first (u "time") no_filter cur with
        | None => None
        | Some time_el =>
            let date_text := time_date_text time_el in
            if truthy date_text then vedomosti_date date_text else None
        end in
      match found with
      | Some date_iso => Some date_iso
      | None => nearest_date fuel' (parent cur)
      end
  | _, _ => None
  end.

(** Strategy 2, one turn of the loop over the links of the section. *)
Definition from_link (p : Parsed) (a : Elem) : Parsed :=
  let href := get_attr_or_empty (u "href") a in
  if negb (truthy href) || non_article_href href then p
  else
    let title := anchor_title a in
    if bad_title title then p
    else
      match nearest_date 10 (parent a) with
      | None => p
      | Some date_iso => admit_item p date_iso title
      end.

(** [extract_news_from_page(html_content)]: strategy 1 over every [time]
    element, then strategy 2 over the links of the section, both writing
    into the same result and the same [seen_keys]. *)
Definition extract_news_from_page (top : list Node) : list NewsItem :=
  let soup := soup_of top in
  let all_times := find_all (u "time") no_filter soup in
  let p := fold_left from_time all_times {| result := []; seen_keys := ∅ |} in
  let section_links := find_all (u "a") (attr_search (u "href") in_site_section) soup in
  result (fold_left from_link section_links p).

End Extractor.
End Vedomosti.

(** ** vedomosti_business.py: the loop *)

Module Business.
Section Loop.
Context `{PyLib}.

(** [extract_news_from_page] of vedomosti_business.py. *)
Definition extract_news_from_page : list Node -> list NewsItem :=
  Vedomosti.extract_news_from_page [u "/business/"; u "/finance/"].

(** What the browser shows in one turn: whether the locator cascade (with its
    scroll-up retries) clicked the trigger; the number of [time] elements and
    the page source read together in the [try]; the number of [time]
    elements after the extra scroll; the second count and page source of the
    retry. [None] stands for a read that raises. *)
Record Round : Type := {
  load_more_clicked : bool;
  snapshot : option (nat * list Node);
  time_count_check : option nat;
  snapshot2 : option (nat * list Node);
}.

Record State : Type := { acc : Acc; no_click_count : nat }.

Definition init : State := {| acc := empty_acc; no_click_count := 0 |}.

(** The stall test:
    [len(collected) > 50 and time_count < len(collected) * 0.3
     and len(chunk) < len(collected) * 0.3]. *)
Definition stalled (acc : Acc) (time_count : nat) (chunk : list NewsItem) : bool :=
  let n := length (collected acc) in
  (50 <? n)%nat && below_30pct time_count n && below_30pct (length chunk) n.

(** The retry after a click that added nothing: wait, parse again, merge. *)
Definition retry (acc1 : Acc) (time_count : nat) (o : Round) : Acc * Flow :=
  match snapshot2 o with
  | None => (acc1, Continue)
  | Some (time_count2, html_content2) =>
      let chunk2 := extract_news_from_page html_content2 in
      let '(acc2, added2) := merge acc1 chunk2 in
      if (0 <? added2)%nat then (acc2, Continue)
      else if (time_count <? time_count2)%nat then (acc2, Continue)
      else if (time_count2 <? time_count)%nat then
        if below_30pct (length chunk2) (length (collected acc2))
        then (acc2, Break) else (acc2, Continue)
      else (acc2, Continue)
  end.

(** The [try] block of one turn. *)
Definition parse_and_merge (acc : Acc) (o : Round) : Acc * Flow :=
  match snapshot o with
  | None => (acc, Continue)
  | Some (time_count, html_content) =>
      let chunk := extract_news_from_page html_content in
      let '(acc1, added) := merge acc chunk in
      if stalled acc1 time_count chunk then (acc1, Break)
      else if load_more_clicked o && (added =? 0)%nat then
        if below_30pct time_count (length (collected acc1)) then
          match time_count_check o with
          | None => (acc1, Continue)
          | Some check =>
              if below_half check (length (collected acc1))
              then (acc1, Break)
              else retry acc1 time_count o
          end
        else retry acc1 time_count o
      else (acc1, Continue)
  end.

(** The body of [for round_num in range(max_clicks)]. *)
Definition round (target_count : nat) (st : State) (o : Round) : State * Flow :=
  let no_click_count :=
    if load_more_clicked o then 0%nat else S (no_click_count st) in
  if negb (load_more_clicked o) && (3 <=? no_click_count)%nat
  then ({| acc := acc st; no_click_count := no_click_count |}, Break)
  else
    let '(acc', flow) := parse_and_merge (acc st) o in
    ({| acc := acc'; no_click_count := no_click_count |},
     match flow with
     | Break => Break
     | Continue => if target_reached target_count acc' then Break else Continue
     end).

(** The loop of [scroll_and_click_load_more] with the number of turns it
    started. *)
Definition harvest (driver : nat -> Round) (max_clicks target_count : nat) : State * nat :=
  for_rounds (round target_count) init (rounds_of driver max_clicks).

(** [scroll_and_click_load_more(driver, max_clicks, target_count)] *)
Definition scroll_and_click_load_more (driver : nat -> Round) (max_clicks target_count : nat)
  : list NewsItem :=
  collected (acc (fst (harvest driver max_clicks target_count))).

End Loop.
End Business.

(** ** vedomosti_economics.py: the loop *)

Module Economics.
Section Loop.
Context `{PyLib}.

(** [extract_news_from_page] of vedomosti_economics.py. *)
Definition extract_news_from_page : list Node -> list NewsItem :=
  Vedomosti.extract_news_from_page [u "/economics/"].

(** What the browser shows in one turn: whether the locator cascade clicked
    the trigger, and the number of [time] elements with the page source
    ([None] when reading them raises). *)
Record Round : Type := {
  load_more_clicked : bool;
  snapshot : option (nat * list Node);
}.

Record State : Type := { acc : Acc; no_click_count : nat }.

Definition init : State := {| acc := empty_acc; no_click_count := 0 |}.

(** The stall test, as in the business module. *)
Definition stalled (acc : Acc) (time_count : nat) (chunk : list NewsItem) : bool :=
  let n := length (collected acc) in
  (50 <? n)%nat && below_30pct time_count n && below_30pct (length chunk) n.

(** The [try] block of one turn. *)
Definition parse_and_merge (acc : Acc) (o : Round) : Acc * Flow :=
  match snapshot o with
  | None => (acc, Continue)
  | Some (time_count, html_content) =>
      let chunk := extract_news_from_page html_content in
      let '(acc1, added) := merge acc chunk in
      if stalled acc1 time_count chunk then (acc1, Break) else (acc1, Continue)
  end.

(** The body of [for round_num in range(max_clicks)]. *)
Definition round (target_count : nat) (st : State) (o : Round) : State * Flow :=
  let no_click_count :=
    if load_more_clicked o then 0%nat else S (no_click_count st) in
  if negb (load_more_clicked o) && (3 <=? no_click_count)%nat
  then ({| acc := acc st; no_click_count := no_click_count |}, Break)
  else
    let '(acc', flow) := parse_and_merge (acc st) o in
    ({| acc := acc'; no_click_count := no_click_count |},
     match flow with
     | Break => Break
     | Continue => if target_reached target_count acc' then Break else Continue
     end).

(** The loop of [scroll_and_click_load_more] with the number of turns it
    started. *)
Definition harvest (driver : nat -> Round) (max_clicks target_count : nat) : State * nat :=
  for_rounds (round target_count) init (rounds_of driver max_clicks).

(** [scroll_and_click_load_more(driver, max_clicks, target_count)] *)
Definition scroll_and_click_load_more (driver : nat -> Round) (max_clicks target_count : nat)
  : list NewsItem :=
  collected (acc (fst (harvest driver max_clicks target_count))).

End Loop.
End Economics.

(** * Statements

    The properties as predicates on the embedding, and the documents and
    browser sessions they are tried on. *)

(** ** The loops *)

(** The stall rule of a loop with turn body [round]: in a turn that reads
    [time_count] date markers and parses [chunk], if the accumulator, once
    the chunk is merged, holds more than 50 items and both counts are below
    30% of its size, the turn leaves the loop. *)
Definition stall_stops {St O : Type}
    (round : nat → St → O → St * Flow) (acc_of : St → Acc)
    (shown : O → option (nat * list NewsItem)) : Prop :=
  ∀ target_count st o time_count chunk,
    shown o = Some (time_count, chunk) →
    let n := length (collected (fst (merge (acc_of st) chunk))) in
    (50 < n)%nat → (10 * time_count < 3 * n)%nat → (10 * length chunk < 3 * n)%nat →
    snd (round target_count st o) = Break.

(** What a turn of the vedomosti loops reads: the count of [time] elements
    and the items parsed from the page source. *)
Definition business_shown `{PyLib} (o : Business.Round) : option (nat * list NewsItem) :=
  (λ '(time_count, html_content), (time_count, Business.extract_news_from_page html_content))
    <$> Business.snapshot o.

Definition economics_shown `{PyLib} (o : Economics.Round) : option (nat * list NewsItem) :=
  (λ '(time_count, html_content), (time_count, Economics.extract_news_from_page html_content))
    <$> Economics.snapshot o.

(** The same two counts for a turn of the interfax loop, both taken from its
    page source. *)
Definition interfax_shown `{PyLib} (o : Interfax.Round) : option (nat * list NewsItem) :=
  (λ html_content,
     (length (find_all (u "time") no_filter (soup_of html_content)),
      Interfax.extract_news_from_page html_content))
    <$> Interfax.page_source o.

(** A page of interfax.ru: one [div.timeline] whose rows pair a [time]
    element with the link of an article. *)
Definition interfax_row (datetime href headline : str) : Node :=
  Tag (u "div") []
      [Tag (u "time") [(u "datetime", datetime)] [];
       Tag (u "a") [(u "href", href)] [Tag (u "h3") [] [Text headline]]].

Definition interfax_page (rows : list Node) : list Node :=
  [Tag (u "div") [(u "class", u "timeline")] rows].

(** The headline of the [k]-th article of a test page: ["News !"],
    ["News !!"], ... *)
Definition headline (k : nat) : str := u "News " ++ replicate (S k) 33.

Definition numbered_row (k : nat) : Node :=
  interfax_row (u "2026-02-05T12:18:00") (u "/business/1") (headline k).

Definition numbered_item (k : nat) : NewsItem :=
  {| date := u "2026-02-05 12:18"; title := headline k |}.

(** The interfax loop after a first turn that showed 51 articles. *)
Definition stale_state : Interfax.State :=
  {| Interfax.acc :=
       {| collected := numbered_item <$> seq 0 51;
          seen := list_to_set (key_of <$> (numbered_item <$> seq 0 51)) |};
     Interfax.no_new_count := 0 |}.

(** A later turn: the trigger is clicked, the page shows no [time] element
    and no article. *)
Definition stale_round : Interfax.Round :=
  {| Interfax.load_more_clicked := true; Interfax.page_source := Some [] |}.

(** A first turn: the trigger is clicked and the page shows 51 articles. *)
Definition full_round : Interfax.Round :=
  {| Interfax.load_more_clicked := true;
     Interfax.page_source := Some (interfax_page (numbered_row <$> seq 0 51)) |}.

(** A loop stops on three misses when, in any run, three turns in a row in
    which the trigger was not clicked end it: no turn after the third is
    started. *)
Definition stops_on_three_misses {St O : Type}
    (run : (nat → O) → nat → nat → St * nat) (clicked : O → bool) : Prop :=
  ∀ driver max_clicks target_count i,
    (∀ j, (i ≤ j < i + 3)%nat → clicked (driver j) = false) →
    (snd (run driver max_clicks target_count) ≤ i + 3)%nat.

(** What a turn of the interfax loop shows: the items parsed from its page
    source, none when reading the page raises. *)
Definition interfax_items `{PyLib} (o : Interfax.Round) : list NewsItem :=
  match Interfax.page_source o with
  | Some html_content => Interfax.extract_news_from_page html_content
  | None => []
  end.

(** The interfax loop stops on three misses that show nothing new: the
    trigger is not clicked in turns [i], [i+1], [i+2], and every item these
    turns show was shown by a turn before [i]. *)
Definition stops_on_three_quiet_misses `{PyLib} : Prop :=
  ∀ driver max_clicks target_count i,
    (∀ j, (i ≤ j < i + 3)%nat →
       Interfax.load_more_clicked (driver j) = false
       ∧ ∀ item, item ∈ interfax_items (driver j) →
           ∃ j', (j' < i)%nat ∧ item ∈ interfax_items (driver j')) →
    (snd (Interfax.harvest driver max_clicks target_count) ≤ i + 3)%nat.

Definition interfax_quiet `{PyLib} (st : Interfax.State) (o : Interfax.Round) : Prop :=
  Interfax.load_more_clicked o = false
  ∧ ∀ item, item ∈ interfax_items o → key_of item ∈ seen (Interfax.acc st).

(** A session of interfax.ru in which the trigger is never found and every
    turn shows one article more, by lazy loading. *)
Definition scrolling_driver (k : nat) : Interfax.Round :=
  {| Interfax.load_more_clicked := false;
     Interfax.page_source := Some (interfax_page [numbered_row k]) |}.

(** ** Dates, links and titles *)

(** The fallback of a normaliser: a text that is neither ISO-prefixed nor a
    dotted date comes back as it went in. *)
Definition falls_back_unchanged `{PyLib} (normalize : str → str) : Prop :=
  ∀ raw,
    Vedomosti.iso_date_prefix raw = false →
    Vedomosti.DATE_DOT_PATTERN (strip raw) = None →
    normalize raw = raw.

(** A library that knows ASCII only, to run the embedding on ASCII
    documents: no further digit, word character or case pair, no character
    reference, and a [urljoin] for absolute paths and absolute URLs. *)
Definition ascii_only : PyLib :=
  {| unicode_decimal := λ _, false;
     unicode_word := λ _, false;
     unicode_lower := λ s, s;
     unicode_caseless := λ _ _, false;
     html_unescape_refs := λ s, s;
     urljoin := λ base url,
       if startswith (u "/") url
       then join (u "/") (take 3 (split 47 base)) ++ url
       else url |}.


(** An anchor the loop of the extractor takes: its link has the shape of an
    article link and its text is no navigation text. *)
Definition accepted `{PyLib} (a_tag : Elem) : bool :=
  let href := get_attr_or_empty (u "href") a_tag in
  Finam.article_href_pattern href && negb (Finam.is_navigation (Finam.finam_text a_tag href)).

(** The absolute URL of an anchor. *)
Definition full_url_of `{PyLib} (a_tag : Elem) : str :=
  urljoin Finam.BASE_URL (get_attr_or_empty (u "href") a_tag).

(** Every entry of the dictionary carries the date of its URL. *)
Definition dated (articles : list Finam.Info) : Prop :=
  ∀ i, i ∈ articles → Finam.a_date i = Finam.parse_datetime_from_url (Finam.a_url i).

(** The test in the words of the specification: the text is longer than the kept title, and it
    is at least 20% longer or the kept title has fewer than 10 characters. *)
Definition may_replace (kept text : str) : Prop :=
  (len kept < len text)%nat
  ∧ ((6 * len kept ≤ 5 * len text)%nat ∨ (len kept < 10)%nat).

(** ** What an extractor returns *)

(** Every item has a title. *)
Definition titles_present (items : list NewsItem) : Prop :=
  Forall (λ item, title item ≠ []) items.

(** No two items share their [(date, title)] key. *)
Definition keys_distinct (items : list NewsItem) : Prop :=
  NoDup (key_of <$> items).

(** A clean extractor: on every document, titles are present and keys are
    distinct. *)
Definition clean_extract (extract : list Node → list NewsItem) : Prop :=
  ∀ top, titles_present (extract top) ∧ keys_distinct (extract top).

(** A news block of akm.ru: the headline link and the meta line whose last
    [span] is the date. *)
Definition akm_news_block (headline date_line : str) : Node :=
  Tag (u "div") [(u "class", u "b-section-item")]
      [Tag (u "h3") [(u "class", u "b-section-item__title")]
           [Tag (u "a") [(u "href", u "/news/1/")] [Text headline]];
       Tag (u "div") [(u "class", u "b-section-item__meta")]
           [Tag (u "span") [] [Text (u "Economy")];
            Tag (u "span") [] [Text date_line]]].

(** A page that lists one article twice: in the main list and in the
    side column. *)
Definition akm_repeating_page : list Node :=
  [akm_news_block (u "Rates held") (u "05 feb 2026 12:18");
   akm_news_block (u "Rates held") (u "05 feb 2026 12:18")].

(** The invariant of the vedomosti extractor: titles are present, keys are
    distinct, and every key of the result is in [seen_keys]. *)
Definition parsed_ok (p : Vedomosti.Parsed) : Prop :=
  titles_present (Vedomosti.result p)
  ∧ keys_distinct (Vedomosti.result p)
  ∧ ∀ item, item ∈ Vedomosti.result p → key_of item ∈ Vedomosti.seen_keys p.

(** The invariant of the accumulator: keys are distinct and every key of the
    list is in [seen]. *)
Definition acc_ok (acc : Acc) : Prop :=
  keys_distinct (collected acc)
  ∧ ∀ item, item ∈ collected acc → key_of item ∈ seen acc.

(** ** The order of the items *)

(** The items follow the candidates: each item comes from a candidate (the
    relation [src]), and the candidates of successive items stand in the
    order of the list. *)
Definition ordered_by {E X : Type} (cands : list E) (src : E → X → Prop) (items : list X)
  : Prop :=
  ∃ els, els `sublist_of` cands ∧ Forall2 src els items.

(** The same as a test, taking for each item the first candidate that can
    bear it. *)
Fixpoint follows {E X : Type} (bears : E → X → bool) (cands : list E) (items : list X) : bool :=
  match items, cands with
  | [], _ => true
  | _ :: _, [] => false
  | item :: items', e :: cands' =>
      if bears e item then follows bears cands' items' else follows bears cands' items
  end.

(** An element can bear an item of a vedomosti page when it is a link with
    the title of the item or a [time] element with its date. *)
Definition bears `{PyLib} (el : Elem) (item : NewsItem) : bool :=
  (is_tag (u "a") el && str_eqb (Vedomosti.anchor_title el) (title item))
  || (is_tag (u "time") el
      && bool_decide (Vedomosti.vedomosti_date (Vedomosti.time_date_text el)
                      = Some (date item))).

(** The items stand in document order: successive items are borne by
    elements that follow one another in the document. *)
Definition in_document_order `{PyLib} (top : list Node) (items : list NewsItem) : Prop :=
  ordered_by (descendants (soup_of top)) (λ el item, bears el item = true) items.

(** A page of vedomosti.ru: a card with two links and one date, then a card
    with a date and a link. *)
Definition two_cards : list Node :=
  [Tag (u "div") []
     [Tag (u "a") [(u "href", u "/business/articles/first")] [Text (u "First")];
      Tag (u "a") [(u "href", u "/business/articles/second")] [Text (u "Second")];
      Tag (u "time") [(u "datetime", u "2026-02-05T10:00")] []];
   Tag (u "div") []
     [Tag (u "time") [] [Text (u "06.02.2026")];
      Tag (u "a") [(u "href", u "/news/third")] [Text (u "Third")]]].

(** The block an item of akm.ru comes from. *)
Definition akm_source `{PyLib} (block : Elem) (item : NewsItem) : Prop :=
  Akm.akm_block [] block = [item].

(** The [time] element an item of interfax.ru comes from. *)
Definition interfax_source `{PyLib} (time_el : Elem) (item : NewsItem) : Prop :=
  Interfax.interfax_time [] time_el = [item].

(** The [time] elements the interfax extractor visits: those of the first
    timeline, then those of the second, and so on. *)
Definition interfax_times (top : list Node) : list Elem :=
  find_all (u "div") (class_matches (Interfax.re_whole (u "timeline"))) (soup_of top)
  ≫= find_all (u "time") (has_attr (u "datetime")).

(** The link an item of finam.ru comes from: an accepted link whose
    absolute URL dates the item. *)
Definition finam_source `{PyLib} (a_tag : Elem) (item : NewsItem) : Prop :=
  accepted a_tag = true
  ∧ date item = Finam.parse_datetime_from_url (full_url_of a_tag).

(** The [time] element an item of the first pass comes from, and the link an
    item of the second pass comes from. *)
Definition time_source `{PyLib} (time_el : Elem) (item : NewsItem) : Prop :=
  ∃ par a,
    parent time_el = Some par
    ∧ Vedomosti.link_of_time par = Some a
    ∧ title item = Vedomosti.anchor_title a
    ∧ Vedomosti.vedomosti_date (Vedomosti.time_date_text time_el) = Some (date item).

Definition link_source `{PyLib} (a : Elem) (item : NewsItem) : Prop :=
  title item = Vedomosti.anchor_title a
  ∧ Vedomosti.nearest_date 10 (parent a) = Some (date item).

(** The two passes of the vedomosti extractor: the items of the [time]
    elements, then the items of the links of the section. *)
Definition two_passes `{PyLib} (sections : list str) (top : list Node)
    (items : list NewsItem) : Prop :=
  ∃ pass1 pass2,
    items = pass1 ++ pass2
    ∧ ordered_by (find_all (u "time") no_filter (soup_of top)) time_source pass1
    ∧ ordered_by (find_all (u "a") (attr_search (u "href") (Vedomosti.in_site_section sections))
                           (soup_of top))
                 link_source pass2.

(** ** Sessions of vedomosti.ru *)

(** A vedomosti loop that holds 51 items, and a turn in which the trigger is
    clicked and the page shows nothing. *)
Definition stale_business : Business.State :=
  {| Business.acc := Interfax.acc stale_state; Business.no_click_count := 0 |}.

Definition empty_visit : Business.Round :=
  {| Business.load_more_clicked := true;
     Business.snapshot := Some (0%nat, []);
     Business.time_count_check := None;
     Business.snapshot2 := None |}.

(** A session of vedomosti.ru in which nothing is found and nothing can be
    read. *)
Definition idle_driver (k : nat) : Business.Round :=
  {| Business.load_more_clicked := false;
     Business.snapshot := None;
     Business.time_count_check := None;
     Business.snapshot2 := None |}.

(** * Proofs *)

(** ** Running the embedding *)

Example u_ascii : u "a-1/" = [97; 45; 49; 47].
Proof. reflexivity. Qed.

Example u_cyrillic : u "ещё →" = [1077; 1097; 1105; 32; 8594].
Proof. reflexivity. Qed.

Example split_slash : split 47 (u "/a/b/") = [u ""; u "a"; u "b"; u ""].
Proof. reflexivity. Qed.

Example strip_both : strip (u "  05.02.2026 ") = u "05.02.2026".
Proof. reflexivity. Qed.

Example block_class_matches `{PyLib} :
  Akm.re_b_section_item (u "b-section-item") = true
  ∧ Akm.re_b_section_item (u "b-section-item__title") = false
  ∧ Akm.re_b_section_item (u "xb-section-item") = false.
Proof. by vm_compute. Qed.

Example interfax_links `{PyLib} :
  Interfax.NEWS_HREF_PATTERN (u "/business/1012345") = true
  ∧ Interfax.NEWS_HREF_PATTERN (u "https://www.interfax.ru/World/77") = true
  ∧ Interfax.NEWS_HREF_PATTERN (u "/sport/1012345") = false
  ∧ Interfax.NEWS_HREF_PATTERN (u "/business/") = false.
Proof. by vm_compute. Qed.

Example url_dates :
  Finam.parse_datetime_from_url (u "/publications/item/ruble-20240702-1943/")
  = u "2024-07-02 19:43"
  ∧ Finam.parse_datetime_from_url (u "/publications/item/ruble-20240702-19431/") = u ""
  ∧ Finam.parse_datetime_from_url (u "/publications/item/ruble/") = u "".
Proof. by vm_compute. Qed.

(** A page of finam.ru: the link of an article twice, first with a teaser
    and then with its headline, and a link without a date token. *)
Example finam_page :
  @Finam.extract_news_from_page ascii_only
    [Tag (u "div") []
       [Tag (u "a") [(u "href", u "/publications/item/ruble-20240702-1943/")]
            [Text (u "Ruble steady")];
        Tag (u "a") [(u "href", u "/publications/item/ruble-20240702-1943/")]
            [Text (u "Ruble steady as the central bank holds its rate")];
        Tag (u "a") [(u "href", u "/publications/item/weekly-review/")]
            [Text (u "Weekly review of the bond market")]]]
  = [ {| date := u "2024-07-02 19:43";
         title := u "Ruble steady as the central bank holds its rate" |};
      {| date := u ""; title := u "Weekly review of the bond market" |} ].
Proof. by vm_compute. Qed.

(** ** The accumulator *)

Lemma merge_item_seen_mono st item :
  seen (fst st) ⊆ seen (fst (merge_item st item)).
Proof.
  destruct st as [acc added]; unfold merge_item; cbn.
  case_bool_decide; cbn; set_solver.
Qed.

Lemma merge_item_records st item :
  key_of item ∈ seen (fst (merge_item st item)).
Proof.
  destruct st as [acc added]; unfold merge_item; cbn.
  case_bool_decide; cbn; set_solver.
Qed.

Lemma merge_fold_seen_mono chunk st :
  seen (fst st) ⊆ seen (fst (fold_left merge_item chunk st)).
Proof.
  revert st; induction chunk as [|item chunk IH]; intros st; cbn; [done|].
  etrans; [apply (merge_item_seen_mono st item)|apply IH].
Qed.

Lemma merge_fold_records chunk st item :
  item ∈ chunk → key_of item ∈ seen (fst (fold_left merge_item chunk st)).
Proof.
  revert st; induction chunk as [|x chunk IH]; intros st Hin; cbn.
  - by apply elem_of_nil in Hin.
  - apply elem_of_cons in Hin as [->|Hin]; [|by apply IH].
    apply merge_fold_seen_mono, merge_item_records.
Qed.

Lemma merge_fold_all_seen chunk acc added :
  (∀ item, item ∈ chunk → key_of item ∈ seen acc) →
  fold_left merge_item chunk (acc, added) = (acc, added).
Proof.
  induction chunk as [|x chunk IH]; intros Hall; cbn; [done|].
  rewrite bool_decide_eq_true_2 by (apply Hall; left).
  apply IH; intros item Hin; apply Hall; by right.
Qed.

Lemma merge_seen_mono acc chunk : seen acc ⊆ seen (fst (merge acc chunk)).
Proof. apply (merge_fold_seen_mono chunk (acc, 0%nat)). Qed.

Lemma merge_records acc chunk item :
  item ∈ chunk → key_of item ∈ seen (fst (merge acc chunk)).
Proof. apply merge_fold_records. Qed.

Lemma merge_all_seen acc chunk :
  (∀ item, item ∈ chunk → key_of item ∈ seen acc) → merge acc chunk = (acc, 0%nat).
Proof. apply merge_fold_all_seen. Qed.

(** C5. Merging the same extraction result a second time, right after the
    first, adds no item and leaves the accumulator (the list and the set of
    seen keys) as it is, whatever the accumulator and the chunk. *)
Theorem merge_idempotent (acc : Acc) (chunk : list NewsItem) :
  merge (fst (merge acc chunk)) chunk = (fst (merge acc chunk), 0%nat).
Proof.
  apply merge_all_seen; intros item Hin; by apply merge_records.
Qed.

(** ** The round cap *)

Lemma for_rounds_bound {St O : Type} (body : St → O → St * Flow) (obs : list O) (st : St) :
  (snd (for_rounds body st obs) ≤ length obs)%nat.
Proof.
  revert st; induction obs as [|o rest IH]; intros st; cbn; [lia|].
  destruct (body st o) as [st' [|]]; cbn; [|lia].
  specialize (IH st'); destruct (for_rounds body st' rest); cbn in *; lia.
Qed.

Lemma rounds_of_length {O : Type} (driver : nat → O) (n : nat) :
  length (rounds_of driver n) = n.
Proof. unfold rounds_of. by rewrite length_map, length_seq. Qed.

(** C3. Whatever the browser shows (the trigger found in every turn and
    every turn showing only known items included) each harvest loop returns
    after at most [max_clicks] (finam: [max_rounds]) turns. *)
Theorem harvest_within_round_cap `{PyLib} (max_clicks target_count : nat) :
  (∀ driver, (snd (Interfax.harvest driver max_clicks target_count) ≤ max_clicks)%nat)
  ∧ (∀ height0 driver,
       (snd (Finam.scroll_and_load_all_news height0 driver max_clicks target_count)
        ≤ max_clicks)%nat)
  ∧ (∀ driver, (snd (Business.harvest driver max_clicks target_count) ≤ max_clicks)%nat)
  ∧ (∀ driver, (snd (Economics.harvest driver max_clicks target_count) ≤ max_clicks)%nat).
Proof.
  unfold Interfax.harvest, Finam.scroll_and_load_all_news, Business.harvest,
    Economics.harvest.
  repeat split; intros; (etrans; [apply for_rounds_bound|]);
    by rewrite rounds_of_length.
Qed.

(** ** The stall heuristic *)

Lemma below_30pct_true a n : (10 * a < 3 * n)%nat → below_30pct a n = true.
Proof. intros; unfold below_30pct; by apply Nat.ltb_lt. Qed.

Lemma business_round_stalled `{PyLib} target_count st o time_count html_content :
  Business.snapshot o = Some (time_count, html_content) →
  Business.stalled
    (fst (merge (Business.acc st) (Business.extract_news_from_page html_content)))
    time_count (Business.extract_news_from_page html_content) = true →
  snd (Business.round target_count st o) = Break.
Proof.
  intros Hsnap Hstalled. unfold Business.round.
  destruct (negb (Business.load_more_clicked o) && _); [done|].
  unfold Business.parse_and_merge; rewrite Hsnap.
  destruct (merge (Business.acc st) _) as [acc1 added].
  unfold fst in Hstalled. by rewrite Hstalled.
Qed.

Lemma economics_round_stalled `{PyLib} target_count st o time_count html_content :
  Economics.snapshot o = Some (time_count, html_content) →
  Economics.stalled
    (fst (merge (Economics.acc st) (Economics.extract_news_from_page html_content)))
    time_count (Economics.extract_news_from_page html_content) = true →
  snd (Economics.round target_count st o) = Break.
Proof.
  intros Hsnap Hstalled. unfold Economics.round.
  destruct (negb (Economics.load_more_clicked o) && _); [done|].
  unfold Economics.parse_and_merge; rewrite Hsnap.
  destruct (merge (Economics.acc st) _) as [acc1 added].
  unfold fst in Hstalled. by rewrite Hstalled.
Qed.

(** C2 (as amended). In the two vedomosti loops a turn leaves the loop when
    the accumulator, after the merge of that turn, holds more than 50 items
    and both the number of [time] elements and the number of parsed items
    are below 30% of its size. *)
Theorem vedomosti_stall_stops `{PyLib} :
  stall_stops Business.round Business.acc business_shown
  ∧ stall_stops Economics.round Economics.acc economics_shown.
Proof.
  split; intros target_count st o time_count chunk Hshown n Hn Htime Hchunk.
  - unfold business_shown in Hshown.
    destruct (Business.snapshot o) as [[tc html]|] eqn:Hsnap; [|done].
    injection Hshown as -> <-.
    apply (business_round_stalled _ _ _ _ _ Hsnap).
    unfold Business.stalled. fold n. rewrite !below_30pct_true by done.
    by apply Nat.ltb_lt in Hn as ->.
  - unfold economics_shown in Hshown.
    destruct (Economics.snapshot o) as [[tc html]|] eqn:Hsnap; [|done].
    injection Hshown as -> <-.
    apply (economics_round_stalled _ _ _ _ _ Hsnap).
    unfold Economics.stalled. fold n. rewrite !below_30pct_true by done.
    by apply Nat.ltb_lt in Hn as ->.
Qed.

(** The stall rule at work: 51 items collected, an empty page, the business
    loop stops. *)
Lemma vedomosti_stall_stops_witness :
  snd (@Business.round ascii_only 0 stale_business empty_visit) = Break.
Proof.
  apply (proj1 (@vedomosti_stall_stops ascii_only) 0%nat stale_business empty_visit
               0%nat [] eq_refl); cbn; lia.
Defined.

Lemma merge_fold_fresh chunk acc added :
  NoDup (key_of <$> chunk) →
  (∀ item, item ∈ chunk → key_of item ∉ seen acc) →
  fold_left merge_item chunk (acc, added)
  = ({| collected := collected acc ++ chunk;
        seen := list_to_set (key_of <$> chunk) ∪ seen acc |},
     (added + length chunk)%nat).
Proof.
  revert acc added; induction chunk as [|x chunk IH]; intros acc added Hnd Hfresh.
  - cbn. destruct acc; cbn. rewrite app_nil_r, Nat.add_0_r. do 2 f_equal.
    by rewrite union_empty_l_L.
  - rewrite fmap_cons in Hnd. apply NoDup_cons in Hnd as [Hx Hnd].
    cbn [fold_left merge_item].
    rewrite bool_decide_eq_false_2 by (apply Hfresh; left).
    rewrite IH; [|done|].
    + cbn. rewrite <- app_assoc. f_equal; [|lia]. f_equal.
      by rewrite (assoc_L (∪)), (comm_L (∪) (list_to_set _) {[ key_of x ]}).
    + intros item Hin; cbn. apply not_elem_of_union; split.
      * apply not_elem_of_singleton. intros Heq. apply Hx.
        rewrite <- Heq. by apply list_elem_of_fmap_2.
      * apply Hfresh; by right.
Qed.

Lemma merge_fresh acc chunk :
  NoDup (key_of <$> chunk) →
  (∀ item, item ∈ chunk → key_of item ∉ seen acc) →
  merge acc chunk
  = ({| collected := collected acc ++ chunk;
        seen := list_to_set (key_of <$> chunk) ∪ seen acc |}, length chunk).
Proof. intros; unfold merge; by rewrite merge_fold_fresh. Qed.

Lemma full_page_items `{PyLib} :
  Interfax.extract_news_from_page (interfax_page (numbered_row <$> seq 0 51))
  = numbered_item <$> seq 0 51.
Proof. vm_compute. reflexivity. Qed.

Lemma interfax_round_fresh `{PyLib} target_count st o html_content chunk :
  Interfax.load_more_clicked o = true →
  Interfax.page_source o = Some html_content →
  Interfax.extract_news_from_page html_content = chunk →
  chunk ≠ [] →
  NoDup (key_of <$> chunk) →
  (∀ item, item ∈ chunk → key_of item ∉ seen (Interfax.acc st)) →
  fst (Interfax.round target_count st o)
  = {| Interfax.acc :=
         {| collected := collected (Interfax.acc st) ++ chunk;
            seen := list_to_set (key_of <$> chunk) ∪ seen (Interfax.acc st) |};
       Interfax.no_new_count := 0 |}.
Proof.
  intros Hclick Hpage Hchunk Hne Hnd Hfresh.
  unfold Interfax.round. rewrite Hclick, Hpage, Hchunk, merge_fresh by done.
  cbn. destruct chunk; done.
Qed.

Lemma numbered_items_distinct n : NoDup (key_of <$> (numbered_item <$> seq 0 n)).
Proof.
  rewrite <- list_fmap_compose. apply NoDup_fmap_2; [|apply NoDup_seq].
  intros i j Heq. apply (f_equal snd) in Heq.
  change (headline i = headline j) in Heq. unfold headline in Heq.
  apply app_inv_head, (f_equal length) in Heq.
  rewrite !length_replicate in Heq. lia.
Qed.

Lemma stale_state_reached `{PyLib} :
  fst (Interfax.harvest (λ _, full_round) 1 0) = stale_state.
Proof.
  unfold Interfax.harvest.
  change (rounds_of (λ _, full_round) 1) with [full_round].
  assert (fst (Interfax.round 0 Interfax.init full_round) = stale_state) as Hr.
  { rewrite (interfax_round_fresh 0 Interfax.init full_round _ _
               eq_refl eq_refl full_page_items).
    - unfold stale_state, Interfax.init, empty_acc; cbn [Interfax.acc collected seen app].
      generalize (list_to_set (C:=gset (str * str)) (key_of <$> (numbered_item <$> seq 0 51))).
      intros X. do 2 f_equal. apply union_empty_r_L.
    - done.
    - apply numbered_items_distinct.
    - intros item _. apply not_elem_of_empty. }
  cbn [for_rounds]. by destruct (Interfax.round 0 Interfax.init full_round) as [st [|]].
Qed.

(** C2, counterexample. The interfax loop has no stall rule: with 51 items
    collected ([stale_state]), a turn that shows no [time] element and parses
    no item ([stale_round]) goes on to the next turn. *)
Lemma interfax_has_no_stall_rule :
  ¬ ∃ L : PyLib, stall_stops (@Interfax.round L) Interfax.acc (@interfax_shown L).
Proof.
  intros [L Hrule].
  specialize (Hrule 0%nat stale_state stale_round 0%nat [] eq_refl).
  assert (snd (Interfax.round 0 stale_state stale_round) = Continue) as Hgo
    by reflexivity.
  rewrite Hrule in Hgo; [done|cbn; lia..].
Qed.

(** ** The run of turns without a trigger *)

Lemma rounds_of_split {O : Type} (driver : nat → O) (max_clicks i : nat) :
  (i + 3 ≤ max_clicks)%nat →
  rounds_of driver max_clicks
  = rounds_of driver i
    ++ driver i :: driver (S i) :: driver (S (S i))
    :: (driver <$> seq (i + 3) (max_clicks - (i + 3))).
Proof.
  intros Hle. unfold rounds_of.
  replace max_clicks with (i + (3 + (max_clicks - (i + 3))))%nat at 1 by lia.
  rewrite seq_app, map_app, seq_app. cbn [seq map app Nat.add].
  by replace (i + 1)%nat with (S i) by lia; replace (i + 2)%nat with (S (S i)) by lia.
Qed.

(** A run of turns before the ones of interest: an invariant that holds
    whenever a turn continues carries a bound on the rest of the loop over
    the prefix. *)
Lemma for_rounds_prefix {St O : Type} (body : St → O → St * Flow)
    (Inv : St → list O → Prop) (rest : list O) (k : nat) :
  (∀ st o pre, Inv st (o :: pre) → snd (body st o) = Continue → Inv (fst (body st o)) pre) →
  (∀ st, Inv st [] → (snd (for_rounds body st rest) ≤ k)%nat) →
  ∀ pre st, Inv st pre → (snd (for_rounds body st (pre ++ rest)) ≤ length pre + k)%nat.
Proof.
  intros Hstep Hrest pre; induction pre as [|o pre IH]; intros st Hinv; cbn.
  - by apply Hrest.
  - specialize (Hstep st o pre Hinv).
    destruct (body st o) as [st' [|]] eqn:Hb; cbn in *; [|lia].
    specialize (IH st' (Hstep eq_refl)).
    destruct (for_rounds body st' (pre ++ rest)); cbn in *; lia.
Qed.

(** Three turns that each either leave the loop or push a counter up, and
    leave it once the counter stands at 2, are the last ones. *)
Lemma three_strikes {St O : Type} (body : St → O → St * Flow)
    (count : St → nat) (miss : St → O → Prop) (o1 o2 o3 : O) (rest : list O) (st : St) :
  (∀ st o, miss st o →
     snd (body st o) = Break ∨ count (fst (body st o)) = S (count st)) →
  (∀ st o, miss st o → (2 ≤ count st)%nat → snd (body st o) = Break) →
  miss st o1 →
  miss (fst (body st o1)) o2 →
  miss (fst (body (fst (body st o1)) o2)) o3 →
  (snd (for_rounds body st (o1 :: o2 :: o3 :: rest)) ≤ 3)%nat.
Proof.
  intros Hup Hout H1 H2 H3. cbn [for_rounds].
  pose proof (Hup _ _ H1) as U1.
  destruct (body st o1) as [st1 [|]] eqn:E1; cbn [snd fst] in *; [|lia].
  pose proof (Hup _ _ H2) as U2.
  destruct (body st1 o2) as [st2 [|]] eqn:E2; cbn [snd fst] in *; [|lia].
  assert (snd (body st2 o3) = Break) as E3.
  { apply Hout; [done|]. destruct U1, U2; try done; lia. }
  destruct (body st2 o3) as [st3 [|]]; cbn in *; [done|lia].
Qed.

Lemma business_miss `{PyLib} target_count st o :
  Business.load_more_clicked o = false →
  snd (Business.round target_count st o) = Break
  ∨ Business.no_click_count (fst (Business.round target_count st o))
    = S (Business.no_click_count st).
Proof.
  intros Hmiss. unfold Business.round. rewrite Hmiss. cbn [negb andb].
  destruct (3 <=? S (Business.no_click_count st))%nat; [by left|].
  destruct (Business.parse_and_merge _ _) as [acc' flow]. by right.
Qed.

Lemma business_third_miss `{PyLib} target_count st o :
  Business.load_more_clicked o = false →
  (2 ≤ Business.no_click_count st)%nat →
  snd (Business.round target_count st o) = Break.
Proof.
  intros Hmiss Hcount. unfold Business.round. rewrite Hmiss. cbn [negb andb].
  by replace (3 <=? S (Business.no_click_count st))%nat with true
    by (symmetry; apply Nat.leb_le; lia).
Qed.

Lemma economics_miss `{PyLib} target_count st o :
  Economics.load_more_clicked o = false →
  snd (Economics.round target_count st o) = Break
  ∨ Economics.no_click_count (fst (Economics.round target_count st o))
    = S (Economics.no_click_count st).
Proof.
  intros Hmiss. unfold Economics.round. rewrite Hmiss. cbn [negb andb].
  destruct (3 <=? S (Economics.no_click_count st))%nat; [by left|].
  destruct (Economics.parse_and_merge _ _) as [acc' flow]. by right.
Qed.

Lemma economics_third_miss `{PyLib} target_count st o :
  Economics.load_more_clicked o = false →
  (2 ≤ Economics.no_click_count st)%nat →
  snd (Economics.round target_count st o) = Break.
Proof.
  intros Hmiss Hcount. unfold Economics.round. rewrite Hmiss. cbn [negb andb].
  by replace (3 <=? S (Economics.no_click_count st))%nat with true
    by (symmetry; apply Nat.leb_le; lia).
Qed.

(** The bound on a whole run from the bound on the three turns, for a loop
    whose misses do not depend on the state. *)
Lemma three_misses_run {St O : Type} (body : St → O → St * Flow) (init : St)
    (count : St → nat) (clicked : O → bool) (driver : nat → O) (max_clicks i : nat) :
  (∀ st o, clicked o = false →
     snd (body st o) = Break ∨ count (fst (body st o)) = S (count st)) →
  (∀ st o, clicked o = false → (2 ≤ count st)%nat → snd (body st o) = Break) →
  (∀ j, (i ≤ j < i + 3)%nat → clicked (driver j) = false) →
  (snd (for_rounds body init (rounds_of driver max_clicks)) ≤ i + 3)%nat.
Proof.
  intros Hup Hout Hmiss.
  destruct (decide (i + 3 ≤ max_clicks)%nat) as [Hle|Hgt].
  - rewrite (rounds_of_split driver max_clicks i Hle).
    pose proof (for_rounds_prefix body (λ _ _, True)
                  (driver i :: driver (S i) :: driver (S (S i))
                     :: (driver <$> seq (i + 3) (max_clicks - (i + 3)))) 3
                  (λ _ _ _ _ _, I)) as Hpre.
    specialize (λ Hrest, Hpre Hrest (rounds_of driver i) init I).
    rewrite rounds_of_length in Hpre. apply Hpre.
    intros st _.
    apply (three_strikes body count (λ _ o, clicked o = false)); auto;
      apply Hmiss; lia.
  - etrans; [apply for_rounds_bound|]. rewrite rounds_of_length. lia.
Qed.

Lemma interfax_round_seen_mono `{PyLib} target_count st o :
  seen (Interfax.acc st) ⊆ seen (Interfax.acc (fst (Interfax.round target_count st o))).
Proof.
  unfold Interfax.round.
  destruct (negb (Interfax.load_more_clicked o) && _); [done|].
  destruct (Interfax.page_source o) as [html|]; [|done].
  pose proof (merge_seen_mono (Interfax.acc st) (Interfax.extract_news_from_page html)).
  by destruct (merge (Interfax.acc st) _).
Qed.

Lemma interfax_round_records `{PyLib} target_count st o item :
  snd (Interfax.round target_count st o) = Continue →
  item ∈ interfax_items o →
  key_of item ∈ seen (Interfax.acc (fst (Interfax.round target_count st o))).
Proof.
  unfold Interfax.round, interfax_items.
  destruct (negb (Interfax.load_more_clicked o) && _); [done|].
  destruct (Interfax.page_source o) as [html|]; [|by intros _ ?%elem_of_nil].
  intros _ Hin.
  pose proof (merge_records (Interfax.acc st) _ _ Hin).
  by destruct (merge (Interfax.acc st) _).
Qed.

Lemma interfax_quiet_miss `{PyLib} target_count st o :
  interfax_quiet st o →
  snd (Interfax.round target_count st o) = Break
  ∨ Interfax.no_new_count (fst (Interfax.round target_count st o))
    = S (Interfax.no_new_count st).
Proof.
  intros [Hmiss Hseen]. unfold Interfax.round. rewrite Hmiss. cbn [negb andb].
  destruct (3 <=? S (Interfax.no_new_count st))%nat; [by left|].
  right. unfold interfax_items in Hseen.
  destruct (Interfax.page_source o) as [html|]; [|done].
  by rewrite (merge_all_seen _ _ Hseen).
Qed.

Lemma interfax_third_miss `{PyLib} target_count st o :
  interfax_quiet st o →
  (2 ≤ Interfax.no_new_count st)%nat →
  snd (Interfax.round target_count st o) = Break.
Proof.
  intros [Hmiss _] Hcount. unfold Interfax.round. rewrite Hmiss. cbn [negb andb].
  by replace (3 <=? S (Interfax.no_new_count st))%nat with true
    by (symmetry; apply Nat.leb_le; lia).
Qed.

Lemma interfax_quiet_mono `{PyLib} target_count st o o' :
  interfax_quiet st o' →
  interfax_quiet (fst (Interfax.round target_count st o)) o'.
Proof.
  intros [Hmiss Hseen]; split; [done|].
  intros item Hin. by apply interfax_round_seen_mono, Hseen.
Qed.

Lemma interfax_three_quiet_misses `{PyLib} : stops_on_three_quiet_misses.
Proof.
  intros driver max_clicks target_count i Hquiet. unfold Interfax.harvest.
  destruct (decide (i + 3 ≤ max_clicks)%nat) as [Hle|Hgt];
    [|etrans; [apply for_rounds_bound|]; rewrite rounds_of_length; lia].
  rewrite (rounds_of_split driver max_clicks i Hle).
  set (later := driver <$> seq (i + 3) (max_clicks - (i + 3))).
  set (known (st : Interfax.State) (pre : list Interfax.Round) := ∀ j item,
         (i ≤ j < i + 3)%nat → item ∈ interfax_items (driver j) →
         key_of item ∈ seen (Interfax.acc st)
         ∨ ∃ o, o ∈ pre ∧ item ∈ interfax_items o).
  pose proof (for_rounds_prefix (Interfax.round target_count) known
                (driver i :: driver (S i) :: driver (S (S i)) :: later) 3) as Hpre.
  specialize (λ Hstep Hrest Hinit, Hpre Hstep Hrest (rounds_of driver i) Interfax.init Hinit).
  rewrite rounds_of_length in Hpre. apply Hpre; clear Hpre.
  - intros st o pre Hknown Hgo j item Hj Hin.
    destruct (Hknown j item Hj Hin) as [Hseen|(o' & [->|Ho']%elem_of_cons & Hin')].
    + left. by apply interfax_round_seen_mono.
    + left. by apply interfax_round_records.
    + right. eauto.
  - intros st Hknown.
    assert (∀ j, (i ≤ j < i + 3)%nat → interfax_quiet st (driver j)) as Hq.
    { intros j Hj; split; [by apply Hquiet|].
      intros item Hin.
      destruct (Hknown j item Hj Hin) as [?|(o' & ?%elem_of_nil & _)]; done. }
    apply (three_strikes _ Interfax.no_new_count interfax_quiet).
    + intros; by apply interfax_quiet_miss.
    + intros; by apply interfax_third_miss.
    + apply Hq; lia.
    + apply interfax_quiet_mono, Hq; lia.
    + do 2 apply interfax_quiet_mono. apply Hq; lia.
  - intros j item Hj Hin. right.
    destruct (Hquiet j Hj) as [_ Hold].
    destruct (Hold item Hin) as (j' & Hj' & Hin').
    exists (driver j'); split; [|done].
    unfold rounds_of. apply list_elem_of_fmap_2, elem_of_seq. lia.
Qed.

(** C4 (as amended). The two vedomosti loops stop on three misses in a row.
    The interfax loop does so when the three turns show no item that an
    earlier turn had not shown; a turn that admits an item resets its
    counter. *)
Theorem three_misses_stop `{PyLib} :
  stops_on_three_misses Business.harvest Business.load_more_clicked
  ∧ stops_on_three_misses Economics.harvest Economics.load_more_clicked
  ∧ stops_on_three_quiet_misses.
Proof.
  split; [|split].
  - intros driver max_clicks target_count i Hmiss.
    apply (three_misses_run _ _ Business.no_click_count Business.load_more_clicked);
      [intros; by apply business_miss|intros; by apply business_third_miss|done].
  - intros driver max_clicks target_count i Hmiss.
    apply (three_misses_run _ _ Economics.no_click_count Economics.load_more_clicked);
      [intros; by apply economics_miss|intros; by apply economics_third_miss|done].
  - apply interfax_three_quiet_misses.
Qed.

(** Three misses from the start: the business loop runs three turns of the
    ten it may run. *)
Lemma three_misses_stop_witness :
  (snd (@Business.harvest ascii_only idle_driver 10 0) ≤ 0 + 3)%nat.
Proof.
  apply (proj1 (@three_misses_stop ascii_only)). intros j Hj. reflexivity.
Defined.

Lemma scrolling_run `{PyLib} : snd (Interfax.harvest scrolling_driver 5 0) = 5%nat.
Proof. vm_compute. reflexivity. Qed.

(** C4, counterexample. The interfax loop does not stop on three misses in
    a row: with [scrolling_driver] the trigger is never found, every turn
    admits one new item, and all 5 turns of a cap of 5 are run. *)
Lemma interfax_runs_past_three_misses :
  ¬ ∃ L : PyLib, stops_on_three_misses (@Interfax.harvest L) Interfax.load_more_clicked.
Proof.
  intros [L Hstop].
  specialize (Hstop scrolling_driver 5%nat 0%nat 0%nat (λ _ _, eq_refl)).
  rewrite scrolling_run in Hstop. lia.
Qed.

(** ** Date normalisation *)

(** C6, counterexample. The minute-precision normaliser of interfax.py
    rewrites a text that is no date: ["Tuesday"] loses its [T]. *)
Lemma interfax_date_rewrites_free_text :
  ¬ ∃ L : PyLib, falls_back_unchanged Interfax.interfax_date.
Proof.
  intros [L Hsame]. specialize (Hsame (u "Tuesday")).
  assert (Interfax.interfax_date (u "Tuesday") = u " uesday") as Hrun
    by (vm_compute; reflexivity).
  rewrite Hsame in Hrun; [|vm_compute; reflexivity..].
  by vm_compute in Hrun.
Qed.

Lemma interfax_date_short_plain (raw : str) :
  has_char 84 raw = false → (length raw ≤ 16)%nat → Interfax.interfax_date raw = raw.
Proof.
  intros HT Hlen. unfold Interfax.interfax_date, slice_to.
  rewrite take_ge by (unfold replace_char; by rewrite length_map).
  clear Hlen. unfold replace_char, has_char in *.
  induction raw as [|c raw IH]; [done|].
  cbn [existsb map] in *. apply orb_false_iff in HT as [Hc HT].
  rewrite N.eqb_sym, Hc. f_equal. by apply IH.
Qed.

(** C6 (as amended). The normalisers are total functions and
    - [dot_date_to_iso] rewrites ["05.02.2026"] to ["2026-02-05"] and returns
      every text that is no dotted date (once stripped) unchanged, ["not a
      date"] among them;
    - the vedomosti extractor cuts an ISO-prefixed text to its first ten
      characters, rewrites a dotted date, and has no date for any other text
      (it skips the element);
    - the interfax extractor puts a space for every [T] and keeps the first
      sixteen characters, which leaves every text of at most sixteen
      characters without a [T] unchanged, ["not a date"] among them. *)
Theorem date_normalisers `{PyLib} :
  Vedomosti.dot_date_to_iso (u "05.02.2026") = u "2026-02-05"
  ∧ Vedomosti.dot_date_to_iso (u "not a date") = u "not a date"
  ∧ (∀ raw, Vedomosti.DATE_DOT_PATTERN (strip raw) = None →
            Vedomosti.dot_date_to_iso raw = raw)
  ∧ Vedomosti.vedomosti_date (u "2026-02-05T12:18:00") = Some (u "2026-02-05")
  ∧ Vedomosti.vedomosti_date (u "05.02.2026") = Some (u "2026-02-05")
  ∧ Vedomosti.vedomosti_date (u "not a date") = None
  ∧ (∀ raw, Vedomosti.iso_date_prefix raw = false →
            Vedomosti.DATE_DOT_PATTERN raw = None →
            Vedomosti.vedomosti_date raw = None)
  ∧ Interfax.interfax_date (u "2026-02-05T12:18:00") = u "2026-02-05 12:18"
  ∧ Interfax.interfax_date (u "not a date") = u "not a date"
  ∧ (∀ raw, has_char 84 raw = false → (length raw ≤ 16)%nat →
            Interfax.interfax_date raw = raw).
Proof.
  repeat split; try (vm_compute; reflexivity).
  - intros raw Hno. unfold Vedomosti.dot_date_to_iso. by rewrite Hno.
  - intros raw Hiso Hdot. unfold Vedomosti.vedomosti_date. by rewrite Hiso, Hdot.
  - apply interfax_date_short_plain.
Qed.

(** Two texts that are no dates and pass through unchanged. *)
Lemma date_normalisers_witness :
  @Vedomosti.dot_date_to_iso ascii_only (u " 5 Feb ") = u " 5 Feb "
  ∧ Interfax.interfax_date (u "yesterday") = u "yesterday".
Proof.
  destruct (@date_normalisers ascii_only)
    as (_ & _ & Hdot & _ & _ & _ & _ & _ & _ & Hshort).
  split; [apply Hdot|apply Hshort]; vm_compute; solve [reflexivity|lia].
Defined.

(** ** finam.py: the date of a link and the title of a URL *)



Lemma articles_update_urls articles full_url text :
  Finam.a_url <$> Finam.articles_update articles full_url text = Finam.a_url <$> articles.
Proof.
  unfold Finam.articles_update. induction articles as [|i articles IH]; [done|].
  cbn [map fmap list_fmap]. f_equal; [by destruct (str_eqb _ _)|apply IH].
Qed.

Lemma articles_update_dated articles full_url text :
  dated articles → dated (Finam.articles_update articles full_url text).
Proof.
  intros Hd i' Hin. unfold Finam.articles_update in Hin.
  apply list_elem_of_In, in_map_iff in Hin as (i & <- & Hin%list_elem_of_In).
  destruct (str_eqb _ _); cbn; by apply Hd.
Qed.

Lemma finam_anchor_dated `{PyLib} articles a_tag :
  dated articles → dated (Finam.finam_anchor articles a_tag).
Proof.
  intros Hd. unfold Finam.finam_anchor.
  destruct (negb (Finam.article_href_pattern _)); [done|].
  destruct (Finam.is_navigation _); [done|].
  apply articles_update_dated.
  destruct (Finam.articles_get articles _); [done|].
  intros i [Hin| ->%list_elem_of_singleton]%elem_of_app; [by apply Hd|done].
Qed.




Lemma finam_fold_dated `{PyLib} anchors articles :
  dated articles → dated (fold_left Finam.finam_anchor anchors articles).
Proof.
  revert articles; induction anchors as [|a anchors IH]; intros articles Hd; [done|].
  cbn. by apply IH, finam_anchor_dated.
Qed.


Lemma finam_emit_dates news_list articles :
  date <$> fold_left Finam.finam_emit articles news_list
  = (date <$> news_list) ++ (Finam.a_date <$> articles).
Proof.
  revert news_list; induction articles as [|i articles IH]; intros news_list; cbn.
  - by rewrite app_nil_r.
  - rewrite IH. unfold Finam.finam_emit.
    destruct (truthy _); rewrite fmap_app, <- app_assoc; done.
Qed.




Lemma keep_title_cases kept text :
  (Finam.keep_title kept text = text
   ∧ (len kept < len text)%nat
   ∧ ((6 * len kept < 5 * len text)%nat ∨ (len kept < 10)%nat))
  ∨ (Finam.keep_title kept text = kept
     ∧ ¬ ((len kept < len text)%nat
          ∧ ((6 * len kept < 5 * len text)%nat ∨ (len kept < 10)%nat))).
Proof.
  unfold Finam.keep_title.
  destruct (len kept <? len text)%nat eqn:Hlonger;
    [apply Nat.ltb_lt in Hlonger|apply Nat.ltb_ge in Hlonger; right; split; [done|lia]].
  destruct (6 * len kept <? 5 * len text)%nat eqn:Hfifth;
    [apply Nat.ltb_lt in Hfifth; left; auto|apply Nat.ltb_ge in Hfifth].
  destruct (len kept <? 10)%nat eqn:Hshort;
    [apply Nat.ltb_lt in Hshort; left; auto|apply Nat.ltb_ge in Hshort].
  right; split; [done|lia].
Qed.

Lemma articles_update_get articles full_url text info :
  Finam.articles_get articles full_url = Some info →
  Finam.articles_get (Finam.articles_update articles full_url text) full_url
  = Some {| Finam.a_url := Finam.a_url info; Finam.a_date := Finam.a_date info;
            Finam.a_title := Finam.keep_title (Finam.a_title info) text |}.
Proof.
  unfold Finam.articles_get, Finam.articles_update.
  induction articles as [|i articles IH]; [done|].
  cbn [List.find map]. destruct (str_eqb (Finam.a_url i) full_url) eqn:Hurl.
  - intros [= ->]. cbn [Finam.a_url]. by rewrite Hurl.
  - rewrite Hurl. apply IH.
Qed.

(** C8. Where a later occurrence of a URL brings the text [text] and the
    entry of the URL keeps the title [kept]:
    - the kept title changes only if the text is longer and either at least
      20% longer or the kept title is under 10 characters, and then the text
      becomes the title;
    - otherwise the kept title stays;
    - and that is what the loop does with the entry of an accepted link
      whose URL is in the dictionary already. *)
Theorem finam_title_replacement `{PyLib} :
  (∀ kept text,
     Finam.keep_title kept text ≠ kept →
     may_replace kept text ∧ Finam.keep_title kept text = text)
  ∧ (∀ kept text, ¬ may_replace kept text → Finam.keep_title kept text = kept)
  ∧ (∀ articles a_tag info,
       accepted a_tag = true →
       Finam.articles_get articles (full_url_of a_tag) = Some info →
       Finam.articles_get (Finam.finam_anchor articles a_tag) (full_url_of a_tag)
       = Some {| Finam.a_url := Finam.a_url info; Finam.a_date := Finam.a_date info;
                 Finam.a_title :=
                   Finam.keep_title (Finam.a_title info)
                     (Finam.finam_text a_tag (get_attr_or_empty (u "href") a_tag)) |}).
Proof.
  split; [|split].
  - intros kept text Hchanged. unfold may_replace.
    destruct (keep_title_cases kept text) as [(-> & ? & [?|?])|[? _]];
      [split; [split; [done|left; lia]|done]|split; [split; [done|by right]|done]|done].
  - intros kept text Hnot. unfold may_replace in Hnot.
    destruct (keep_title_cases kept text) as [(_ & ? & [?|?])|[? _]]; [| |done];
      exfalso; apply Hnot; (split; [done|]); [left; lia|by right].
  - intros articles a_tag info Hacc Hget.
    unfold accepted in Hacc. apply andb_true_iff in Hacc as [Hhref Hnav%negb_true_iff].
    unfold Finam.finam_anchor, full_url_of in *. rewrite Hhref, Hnav. cbn [negb].
    rewrite Hget. by apply articles_update_get.
Qed.

(** A title of 10 characters and a text of 13: the text is taken. A text
    of 11 is not, and leaves the title as it is. *)
Lemma finam_title_replacement_witness :
  Finam.keep_title (u "Finam news") (u "Finam news 24") = u "Finam news 24"
  ∧ Finam.keep_title (u "Finam news") (u "Finam news!") = u "Finam news".
Proof.
  split.
  - apply (proj1 (@finam_title_replacement ascii_only)). by vm_compute.
  - apply (proj1 (proj2 (@finam_title_replacement ascii_only))).
    unfold may_replace. vm_compute. lia.
Defined.

(** ** What an extractor returns *)

Lemma truthy_nonempty (s : str) : truthy s = true → s ≠ [].
Proof.
  unfold truthy, str_eqb. intros Ht ->. by rewrite bool_decide_eq_true_2 in Ht.
Qed.

(** A loop that appends at most one item per turn keeps a property of all
    items that each appended item has. *)
Lemma fold_left_appends {E : Type} (P : NewsItem → Prop)
    (step : list NewsItem → E → list NewsItem) (els : list E) (acc : list NewsItem) :
  (∀ acc e, step acc e = acc ∨ ∃ item, P item ∧ step acc e = acc ++ [item]) →
  Forall P acc → Forall P (fold_left step els acc).
Proof.
  intros Hstep. revert acc; induction els as [|e els IH]; intros acc Hacc; [done|].
  cbn. apply IH. destruct (Hstep acc e) as [->|(item & Hitem & ->)]; [done|].
  apply Forall_app; split; [done|]. by constructor.
Qed.

Lemma akm_repeating_page_items `{PyLib} :
  Akm.get_akm_news akm_repeating_page
  = [ {| date := u "05 feb 2026 12:18"; title := u "Rates held" |};
      {| date := u "05 feb 2026 12:18"; title := u "Rates held" |} ].
Proof. vm_compute. reflexivity. Qed.

(** C1, counterexample. [get_akm_news] has no set of seen keys: a page that
    shows one article in two blocks yields the item twice. *)
Lemma akm_extract_repeats : ¬ ∃ L : PyLib, clean_extract (@Akm.get_akm_news L).
Proof.
  intros [L Hclean]. destruct (Hclean akm_repeating_page) as [_ Hdistinct].
  unfold keys_distinct in Hdistinct. rewrite akm_repeating_page_items in Hdistinct.
  cbn [fmap list_fmap] in Hdistinct.
  apply NoDup_cons in Hdistinct as [Hfresh _]. apply Hfresh. by left.
Qed.

Lemma akm_block_cases `{PyLib} news_list block :
  Akm.akm_block news_list block = news_list
  ∨ ∃ item, (date item ≠ [] ∧ title item ≠ [])
            ∧ Akm.akm_block news_list block = news_list ++ [item].
Proof.
  unfold Akm.akm_block.
  destruct (find_first (u "h3") _ block) as [title_tag|]; [|by left].
  destruct (find_first (u "a") _ title_tag) as [link|]; [|by left].
  destruct (negb (truthy (get_text [] link))); [by left|].
  match goal with |- context [truthy ?t && truthy ?d] =>
    destruct (truthy t) eqn:Ht; [|by left];
    destruct (truthy d) eqn:Hd; [|by left]
  end.
  right. eexists; split; [|done]. split; by apply truthy_nonempty.
Qed.



Lemma fold_left_invariant {St E : Type} (Inv : St → Prop) (step : St → E → St)
    (els : list E) (st : St) :
  (∀ st e, Inv st → Inv (step st e)) → Inv st → Inv (fold_left step els st).
Proof.
  intros Hstep. revert st; induction els as [|e els IH]; intros st Hst; [done|].
  cbn. by apply IH, Hstep.
Qed.

Lemma titles_present_snoc items d t :
  titles_present items → t ≠ [] → titles_present (items ++ [{| date := d; title := t |}]).
Proof. intros Hall Ht. apply Forall_app; split; [done|]. by constructor. Qed.

Lemma akm_titles_present `{PyLib} top : titles_present (Akm.get_akm_news top).
Proof.
  unfold Akm.get_akm_news. apply (fold_left_appends (λ item, title item ≠ []));
    [|constructor].
  intros acc block. destruct (akm_block_cases acc block) as [->|(item & [_ Ht] & ->)];
    [by left|right; eauto].
Qed.

Lemma interfax_time_titles `{PyLib} news_list time_el :
  titles_present news_list → titles_present (Interfax.interfax_time news_list time_el).
Proof.
  intros Hall. unfold Interfax.interfax_time.
  destruct (parent time_el) as [par|]; [|done].
  destruct (find_first (u "a") _ par) as [a|]; [|done].
  destruct (negb (truthy (strip _))); [done|].
  match goal with |- context [negb (truthy ?t)] => destruct (truthy t) eqn:Ht end;
    cbn [negb]; [|done].
  by apply titles_present_snoc, truthy_nonempty.
Qed.

Lemma interfax_titles_present `{PyLib} top :
  titles_present (Interfax.extract_news_from_page top).
Proof.
  unfold Interfax.extract_news_from_page.
  destruct (find_all (u "div") _ (soup_of top)) as [|timeline timelines]; [constructor|].
  apply (fold_left_invariant titles_present); [|constructor].
  intros news_list tl Hall. unfold Interfax.interfax_timeline.
  apply (fold_left_invariant titles_present); [|done].
  intros; by apply interfax_time_titles.
Qed.

Lemma keys_distinct_snoc items item :
  keys_distinct items → key_of item ∉ key_of <$> items → keys_distinct (items ++ [item]).
Proof.
  unfold keys_distinct. intros Hnd Hfresh. rewrite fmap_app.
  apply NoDup_app; split; [done|]. split; [|apply NoDup_singleton].
  intros k Hk ->%list_elem_of_singleton. done.
Qed.

Lemma admit_item_ok p date_iso title :
  title ≠ [] → parsed_ok p → parsed_ok (Vedomosti.admit_item p date_iso title).
Proof.
  intros Ht (Htitles & Hdistinct & Hseen). unfold Vedomosti.admit_item.
  case_bool_decide as Hin; [done|]. cbn. split; [|split].
  - by apply titles_present_snoc.
  - apply keys_distinct_snoc; [done|].
    intros (item & Hkey & Hitem)%list_elem_of_fmap. apply Hin.
    change ((date_iso, title) = key_of item) in Hkey. rewrite Hkey. by apply Hseen.
  - intros item [Hitem| ->%list_elem_of_singleton]%elem_of_app.
    + apply elem_of_union; right. by apply Hseen.
    + apply elem_of_union; left. by apply elem_of_singleton.
Qed.

Lemma bad_title_false title : Vedomosti.bad_title title = false → title ≠ [].
Proof.
  unfold Vedomosti.bad_title. intros [Ht%negb_false_iff _]%orb_false_iff.
  by apply truthy_nonempty.
Qed.

Lemma from_time_ok `{PyLib} sections p time_el :
  parsed_ok p → parsed_ok (Vedomosti.from_time sections p time_el).
Proof.
  intros Hok. unfold Vedomosti.from_time.
  destruct (negb (truthy _)); [done|].
  destruct (Vedomosti.vedomosti_date _) as [date_iso|]; [|done].
  destruct (parent time_el) as [par|]; [|done].
  destruct (Vedomosti.link_of_time par) as [a|]; [|done].
  destruct (negb (truthy _)); [done|].
  destruct (negb (Vedomosti.is_news_link _ _)); [done|].
  destruct (Vedomosti.bad_title _) eqn:Hbad; [done|].
  apply admit_item_ok; [by apply bad_title_false|done].
Qed.

Lemma from_link_ok `{PyLib} p a :
  parsed_ok p → parsed_ok (Vedomosti.from_link p a).
Proof.
  intros Hok. unfold Vedomosti.from_link.
  destruct (negb (truthy _) || _); [done|].
  destruct (Vedomosti.bad_title _) eqn:Hbad; [done|].
  destruct (Vedomosti.nearest_date 10 _) as [date_iso|]; [|done].
  apply admit_item_ok; [by apply bad_title_false|done].
Qed.

Lemma vedomosti_clean `{PyLib} sections :
  clean_extract (Vedomosti.extract_news_from_page sections).
Proof.
  intros top. unfold Vedomosti.extract_news_from_page.
  match goal with |- context [Vedomosti.result ?p] => assert (parsed_ok p) as (? & ? & _) end;
    [|done].
  apply (fold_left_invariant parsed_ok); [intros; by apply from_link_ok|].
  apply (fold_left_invariant parsed_ok); [intros; by apply from_time_ok|].
  repeat split; [constructor|apply NoDup_nil_2|by intros item ?%elem_of_nil].
Qed.

Lemma empty_acc_ok : acc_ok empty_acc.
Proof. split; [apply NoDup_nil_2|by intros item ?%elem_of_nil]. Qed.

Lemma merge_item_ok st item : acc_ok (fst st) → acc_ok (fst (merge_item st item)).
Proof.
  destruct st as [acc added]. intros [Hdistinct Hseen]. unfold merge_item.
  case_bool_decide as Hin; [done|]. cbn. split.
  - apply keys_distinct_snoc; [done|].
    intros (item' & Hkey & Hitem)%list_elem_of_fmap. apply Hin.
    rewrite Hkey. by apply Hseen.
  - intros item' [Hitem| ->%list_elem_of_singleton]%elem_of_app.
    + apply elem_of_union; right. by apply Hseen.
    + apply elem_of_union; left. by apply elem_of_singleton.
Qed.

Lemma merge_ok acc chunk : acc_ok acc → acc_ok (fst (merge acc chunk)).
Proof.
  intros Hok. unfold merge.
  apply (fold_left_invariant (λ st, acc_ok (fst st))); [|done].
  intros; by apply merge_item_ok.
Qed.

Lemma for_rounds_invariant {St O : Type} (Inv : St → Prop) (body : St → O → St * Flow)
    (obs : list O) (st : St) :
  (∀ st o, Inv st → Inv (fst (body st o))) → Inv st → Inv (fst (for_rounds body st obs)).
Proof.
  intros Hbody. revert st; induction obs as [|o rest IH]; intros st Hst; [done|].
  cbn. specialize (Hbody st o Hst). destruct (body st o) as [st' [|]]; cbn in *.
  - specialize (IH st' Hbody). by destruct (for_rounds body st' rest).
  - done.
Qed.

Lemma interfax_round_ok `{PyLib} target_count st o :
  acc_ok (Interfax.acc st) → acc_ok (Interfax.acc (fst (Interfax.round target_count st o))).
Proof.
  intros Hok. unfold Interfax.round.
  destruct (negb (Interfax.load_more_clicked o) && _); [done|].
  destruct (Interfax.page_source o) as [html|]; [|done].
  pose proof (merge_ok (Interfax.acc st) (Interfax.extract_news_from_page html) Hok).
  by destruct (merge (Interfax.acc st) _).
Qed.

Lemma business_parse_ok `{PyLib} acc o :
  acc_ok acc → acc_ok (fst (Business.parse_and_merge acc o)).
Proof.
  intros Hok. unfold Business.parse_and_merge.
  destruct (Business.snapshot o) as [[time_count html]|]; [|done].
  pose proof (merge_ok acc (Business.extract_news_from_page html) Hok) as Hok1.
  destruct (merge acc _) as [acc1 added]; cbn [fst] in Hok1.
  assert (acc_ok (fst (Business.retry acc1 time_count o))) as Hretry.
  { unfold Business.retry.
    destruct (Business.snapshot2 o) as [[time_count2 html2]|]; [|done].
    pose proof (merge_ok acc1 (Business.extract_news_from_page html2) Hok1) as Hok2.
    destruct (merge acc1 _) as [acc2 added2]; cbn [fst] in Hok2.
    repeat (match goal with |- context [if ?b then _ else _] => destruct b end); done. }
  repeat (match goal with
          | |- context [if ?b then _ else _] => destruct b
          | |- context [match Business.time_count_check o with _ => _ end] =>
              destruct (Business.time_count_check o)
          end); done.
Qed.

Lemma business_round_ok `{PyLib} target_count st o :
  acc_ok (Business.acc st) → acc_ok (Business.acc (fst (Business.round target_count st o))).
Proof.
  intros Hok. unfold Business.round.
  destruct (negb (Business.load_more_clicked o) && _); [done|].
  pose proof (business_parse_ok (Business.acc st) o Hok).
  by destruct (Business.parse_and_merge _ _).
Qed.

Lemma economics_round_ok `{PyLib} target_count st o :
  acc_ok (Economics.acc st) → acc_ok (Economics.acc (fst (Economics.round target_count st o))).
Proof.
  intros Hok. unfold Economics.round.
  destruct (negb (Economics.load_more_clicked o) && _); [done|].
  unfold Economics.parse_and_merge.
  destruct (Economics.snapshot o) as [[time_count html]|]; [|done].
  pose proof (merge_ok (Economics.acc st) (Economics.extract_news_from_page html) Hok).
  destruct (merge (Economics.acc st) _) as [acc1 added].
  by destruct (Economics.stalled _ _ _).
Qed.

(** C1 (as amended). The extractors of akm.py, interfax.py and the two
    vedomosti modules return no item with an empty title. The vedomosti
    extractors return no two items with one key. For the other sites the
    keys are distinct after the merge that follows the extraction: a merge
    into an accumulator keeps its keys distinct, so the list [main] of
    finam.py writes and the lists the harvest loops return hold every key
    once. *)
Theorem extracted_items_clean `{PyLib} :
  (∀ top, titles_present (Akm.get_akm_news top))
  ∧ (∀ top, titles_present (Interfax.extract_news_from_page top))
  ∧ clean_extract Business.extract_news_from_page
  ∧ clean_extract Economics.extract_news_from_page
  ∧ (∀ acc chunk, acc_ok acc → acc_ok (fst (merge acc chunk)))
  ∧ (∀ news_list, keys_distinct (Finam.uniq_news news_list))
  ∧ (∀ driver max_clicks target_count,
       keys_distinct (Interfax.scroll_and_click_load_more driver max_clicks target_count))
  ∧ (∀ driver max_clicks target_count,
       keys_distinct (Business.scroll_and_click_load_more driver max_clicks target_count))
  ∧ (∀ driver max_clicks target_count,
       keys_distinct (Economics.scroll_and_click_load_more driver max_clicks target_count)).
Proof.
  split; [intros; apply akm_titles_present|].
  split; [intros; apply interfax_titles_present|].
  split; [apply vedomosti_clean|].
  split; [apply vedomosti_clean|].
  split; [intros; by apply merge_ok|].
  split; [intros; apply (merge_ok empty_acc _ empty_acc_ok)|].
  split; [|split]; intros driver max_clicks target_count.
  - unfold Interfax.scroll_and_click_load_more, Interfax.harvest.
    apply (for_rounds_invariant (λ st, acc_ok (Interfax.acc st)));
      [intros; by apply interfax_round_ok|apply empty_acc_ok].
  - unfold Business.scroll_and_click_load_more, Business.harvest.
    apply (for_rounds_invariant (λ st, acc_ok (Business.acc st)));
      [intros; by apply business_round_ok|apply empty_acc_ok].
  - unfold Economics.scroll_and_click_load_more, Economics.harvest.
    apply (for_rounds_invariant (λ st, acc_ok (Economics.acc st)));
      [intros; by apply economics_round_ok|apply empty_acc_ok].
Qed.

(** The page that repeats an article, after the merge: one item. *)
Lemma extracted_items_clean_witness :
  acc_ok (fst (merge empty_acc (@Akm.get_akm_news ascii_only akm_repeating_page))).
Proof.
  destruct (@extracted_items_clean ascii_only) as (_ & _ & _ & _ & Hmerge & _).
  apply Hmerge, empty_acc_ok.
Defined.

(** ** The order of the items *)

Lemma follows_tail {E X : Type} (bears : E → X → bool) cands item items :
  follows bears cands (item :: items) = true → follows bears cands items = true.
Proof.
  revert item items; induction cands as [|e cands IH]; intros item items; [done|].
  cbn [follows]. destruct items as [|item' items]; [done|].
  destruct (bears e item) eqn:Hb.
  - destruct (bears e item'); [apply IH|done].
  - destruct (bears e item'); [intros Hf; by apply IH, IH in Hf|apply IH].
Qed.

Lemma ordered_follows {E X : Type} (bears : E → X → bool) cands items :
  ordered_by cands (λ e item, bears e item = true) items → follows bears cands items = true.
Proof.
  intros (els & Hsub & Hsrc). revert items Hsrc.
  induction Hsub as [|e els cands Hsub IH|e els cands Hsub IH]; intros items Hsrc.
  - by apply Forall2_nil_inv_l in Hsrc as ->.
  - apply Forall2_cons_inv_l in Hsrc as (item & items' & Hb & Hsrc & ->).
    cbn [follows]. rewrite Hb. by apply IH.
  - destruct items as [|item items']; [done|].
    cbn [follows]. destruct (bears e item); [|by apply IH].
    eapply follows_tail. by apply IH.
Qed.

Lemma ordered_by_nil {E X : Type} (cands : list E) (src : E → X → Prop) :
  ordered_by cands src [].
Proof. exists []; split; [apply sublist_nil_l|constructor]. Qed.

Lemma ordered_by_app {E X : Type} (src : E → X → Prop) cands1 cands2 items1 items2 :
  ordered_by cands1 src items1 → ordered_by cands2 src items2 →
  ordered_by (cands1 ++ cands2) src (items1 ++ items2).
Proof.
  intros (els1 & Hsub1 & Hsrc1) (els2 & Hsub2 & Hsrc2).
  exists (els1 ++ els2); split; [by apply sublist_app|by apply Forall2_app].
Qed.

(** A loop over the candidates that appends at most one item per turn, an
    item of the candidate of that turn, lists its items in the order of the
    candidates. *)
Lemma fold_left_ordered {St E X : Type} (out : St → list X) (src : E → X → Prop)
    (step : St → E → St) (els : list E) (st : St) :
  (∀ st e, out (step st e) = out st
           ∨ ∃ item, src e item ∧ out (step st e) = out st ++ [item]) →
  ∃ items, out (fold_left step els st) = out st ++ items ∧ ordered_by els src items.
Proof.
  intros Hstep. revert st; induction els as [|e els IH]; intros st.
  - exists []; split; [by rewrite app_nil_r|apply ordered_by_nil].
  - cbn [fold_left]. destruct (IH (step st e)) as (items & -> & els' & Hsub & Hsrc).
    destruct (Hstep st e) as [->|(item & Hitem & ->)].
    + exists items; split; [done|]. exists els'; split; [by apply sublist_cons|done].
    + exists (item :: items); split; [by rewrite <- app_assoc|].
      exists (e :: els'); split; [by apply sublist_skip|by constructor].
Qed.

Lemma two_cards_items `{PyLib} :
  Business.extract_news_from_page two_cards
  = [ {| date := u "2026-02-05"; title := u "First" |};
      {| date := u "2026-02-06"; title := u "Third" |};
      {| date := u "2026-02-05"; title := u "Second" |} ].
Proof. vm_compute. reflexivity. Qed.

(** C9, counterexample. The second pass of the vedomosti extractor appends
    after the first: on [two_cards] the item of the link ["Second"], which
    only the second pass finds, comes after the item ["Third"] of the second
    card, though both its link and its [time] element stand before those of
    ["Third"] in the document. *)
Lemma second_pass_breaks_order :
  ¬ ∃ L : PyLib, ∀ top, in_document_order top (Business.extract_news_from_page top).
Proof.
  intros [L Horder]. specialize (Horder two_cards).
  apply ordered_follows in Horder. rewrite two_cards_items in Horder.
  by vm_compute in Horder.
Qed.

Lemma find_all_in_document_order name flt e :
  find_all name flt e `sublist_of` descendants e.
Proof.
  unfold find_all. induction (descendants e) as [|d ds IH]; [done|].
  cbn [List.filter]. destruct (is_tag name d && flt d);
    [by apply sublist_skip|by apply sublist_cons].
Qed.

Lemma akm_block_appends `{PyLib} news_list block :
  Akm.akm_block news_list block = news_list ++ Akm.akm_block [] block.
Proof.
  unfold Akm.akm_block.
  repeat (match goal with
          | |- context [match ?m with Some _ => _ | None => _ end] =>
              lazymatch m with
              | find_first _ _ _ => destruct m
              end
          | |- context [if ?b then _ else _] => destruct b
          end; rewrite ?app_nil_r; try done).
Qed.

Lemma akm_block_one `{PyLib} block :
  Akm.akm_block [] block = [] ∨ ∃ item, Akm.akm_block [] block = [item].
Proof.
  destruct (akm_block_cases [] block) as [->|(item & _ & ->)]; [by left|right; eauto].
Qed.

Lemma interfax_time_appends `{PyLib} news_list time_el :
  Interfax.interfax_time news_list time_el
  = news_list ++ Interfax.interfax_time [] time_el.
Proof.
  unfold Interfax.interfax_time.
  destruct (parent time_el) as [par|]; [|by rewrite app_nil_r].
  destruct (find_first (u "a") _ par) as [a|]; [|by rewrite app_nil_r].
  destruct (negb (truthy (strip _))); [by rewrite app_nil_r|].
  match goal with |- context [negb (truthy ?t)] => destruct (negb (truthy t)) end;
    [by rewrite app_nil_r|done].
Qed.

Lemma interfax_time_one `{PyLib} time_el :
  Interfax.interfax_time [] time_el = []
  ∨ ∃ item, Interfax.interfax_time [] time_el = [item].
Proof.
  unfold Interfax.interfax_time.
  destruct (parent time_el) as [par|]; [|by left].
  destruct (find_first (u "a") _ par) as [a|]; [|by left].
  destruct (negb (truthy (strip _))); [by left|].
  match goal with |- context [negb (truthy ?t)] => destruct (negb (truthy t)) end;
    [by left|right; eauto].
Qed.

Lemma interfax_ordered `{PyLib} top :
  ordered_by (interfax_times top) interfax_source (Interfax.extract_news_from_page top).
Proof.
  unfold Interfax.extract_news_from_page, interfax_times.
  set (timelines := find_all (u "div") _ (soup_of top)).
  assert (∀ news_list,
            ∃ items, fold_left Interfax.interfax_timeline timelines news_list
                     = news_list ++ items
                     ∧ ordered_by (timelines ≫= find_all (u "time") (has_attr (u "datetime")))
                                  interfax_source items) as Hloop.
  { induction timelines as [|tl tls IH]; intros news_list.
    - exists []; split; [by rewrite app_nil_r|apply ordered_by_nil].
    - cbn [fold_left]. destruct (IH (Interfax.interfax_timeline news_list tl))
        as (later & -> & Hlater).
      unfold Interfax.interfax_timeline at 1.
      destruct (fold_left_ordered (λ l, l) interfax_source Interfax.interfax_time
                  (find_all (u "time") (has_attr (u "datetime")) tl) news_list)
        as (here & -> & Hhere).
      { intros acc t. rewrite interfax_time_appends.
        destruct (interfax_time_one t) as [->|[item Hitem]];
          [left; by rewrite app_nil_r|right; exists item; by rewrite Hitem]. }
      exists (here ++ later); split; [by rewrite app_assoc|].
      rewrite bind_cons. by apply ordered_by_app. }
  destruct (Hloop []) as (items & Heq & Hord).
  destruct timelines; [apply ordered_by_nil|]. by rewrite Heq.
Qed.

Lemma finam_anchor_one `{PyLib} articles a_tag :
  Finam.a_url <$> Finam.finam_anchor articles a_tag = Finam.a_url <$> articles
  ∨ ∃ url, (accepted a_tag = true ∧ url = full_url_of a_tag)
           ∧ Finam.a_url <$> Finam.finam_anchor articles a_tag
             = (Finam.a_url <$> articles) ++ [url].
Proof.
  unfold Finam.finam_anchor, accepted, full_url_of.
  destruct (Finam.article_href_pattern _); cbn [negb andb]; [|by left].
  destruct (Finam.is_navigation _); cbn [negb]; [by left|].
  rewrite articles_update_urls.
  destruct (Finam.articles_get articles _); [by left|].
  right. eexists; split; [done|]. by rewrite fmap_app.
Qed.

Lemma finam_ordered `{PyLib} top :
  ordered_by (find_all (u "a") (has_attr (u "href")) (soup_of top)) finam_source
             (Finam.extract_news_from_page top).
Proof.
  unfold Finam.extract_news_from_page, Finam.finam_articles.
  set (anchors := find_all (u "a") _ (soup_of top)).
  destruct (fold_left_ordered (λ st, Finam.a_url <$> st)
              (λ a url, accepted a = true ∧ url = full_url_of a)
              Finam.finam_anchor anchors []) as (urls & Hurls & els & Hsub & Hsrc);
    [intros; apply finam_anchor_one|].
  cbn [fmap list_fmap app] in Hurls.
  exists els; split; [done|].
  set (articles := fold_left Finam.finam_anchor anchors []) in *.
  assert (dated articles) as Hd by (apply finam_fold_dated; by intros i ?%elem_of_nil).
  pose proof (finam_emit_dates [] articles) as Hdates. cbn [fmap list_fmap app] in Hdates.
  assert (Forall2 (λ url item, date item = Finam.parse_datetime_from_url url)
                  urls (fold_left Finam.finam_emit articles [])) as Hitems.
  { rewrite <- Hurls. clear Hurls Hsrc.
    generalize dependent (fold_left Finam.finam_emit articles []).
    induction articles as [|i articles IH]; intros items Hdates.
    - destruct items; [constructor|done].
    - destruct items as [|item items]; [done|]. injection Hdates as Hdate Hdates.
      constructor; [|apply IH; [intros j Hj; apply Hd; by right|done]].
      rewrite Hdate. apply Hd. by left. }
  clear Hurls Hsub. revert Hitems. generalize (fold_left Finam.finam_emit articles []).
  induction Hsrc as [|a url els' urls' [Hacc ->] Hsrc IH]; intros items Hitems.
  - apply Forall2_nil_inv_l in Hitems as ->. constructor.
  - apply Forall2_cons_inv_l in Hitems as (item & items' & Hdate & Hitems & ->).
    constructor; [done|]. by apply IH.
Qed.

Lemma admit_item_one p date_iso title :
  Vedomosti.result (Vedomosti.admit_item p date_iso title) = Vedomosti.result p
  ∨ Vedomosti.result (Vedomosti.admit_item p date_iso title)
    = Vedomosti.result p ++ [{| date := date_iso; title := title |}].
Proof. unfold Vedomosti.admit_item. case_bool_decide; [by left|by right]. Qed.

Lemma from_time_one `{PyLib} sections p time_el :
  Vedomosti.result (Vedomosti.from_time sections p time_el) = Vedomosti.result p
  ∨ ∃ item, time_source time_el item
            ∧ Vedomosti.result (Vedomosti.from_time sections p time_el)
              = Vedomosti.result p ++ [item].
Proof.
  unfold Vedomosti.from_time.
  destruct (negb (truthy _)); [by left|].
  destruct (Vedomosti.vedomosti_date _) as [date_iso|] eqn:Hdate; [|by left].
  destruct (parent time_el) as [par|] eqn:Hpar; [|by left].
  destruct (Vedomosti.link_of_time par) as [a|] eqn:Hlink; [|by left].
  destruct (negb (truthy _)); [by left|].
  destruct (negb (Vedomosti.is_news_link _ _)); [by left|].
  destruct (Vedomosti.bad_title _); [by left|].
  destruct (admit_item_one p date_iso (Vedomosti.anchor_title a)) as [->| ->];
    [by left|right].
  eexists; split; [|done]. by exists par, a.
Qed.

Lemma from_link_one `{PyLib} p a :
  Vedomosti.result (Vedomosti.from_link p a) = Vedomosti.result p
  ∨ ∃ item, link_source a item
            ∧ Vedomosti.result (Vedomosti.from_link p a) = Vedomosti.result p ++ [item].
Proof.
  unfold Vedomosti.from_link.
  destruct (negb (truthy _) || _); [by left|].
  destruct (Vedomosti.bad_title _); [by left|].
  destruct (Vedomosti.nearest_date 10 _) as [date_iso|] eqn:Hdate; [|by left].
  destruct (admit_item_one p date_iso (Vedomosti.anchor_title a)) as [->| ->];
    [by left|right].
  eexists; split; [|done]. by split.
Qed.

Lemma vedomosti_two_passes `{PyLib} sections top :
  two_passes sections top (Vedomosti.extract_news_from_page sections top).
Proof.
  unfold Vedomosti.extract_news_from_page.
  destruct (fold_left_ordered Vedomosti.result time_source (Vedomosti.from_time sections)
              (find_all (u "time") no_filter (soup_of top))
              {| Vedomosti.result := []; Vedomosti.seen_keys := ∅ |})
    as (pass1 & Hpass1 & Hord1); [intros; apply from_time_one|].
  destruct (fold_left_ordered Vedomosti.result link_source Vedomosti.from_link
              (find_all (u "a") (attr_search (u "href") (Vedomosti.in_site_section sections))
                        (soup_of top))
              (fold_left (Vedomosti.from_time sections)
                         (find_all (u "time") no_filter (soup_of top))
                         {| Vedomosti.result := []; Vedomosti.seen_keys := ∅ |}))
    as (pass2 & Hpass2 & Hord2); [intros; apply from_link_one|].
  exists pass1, pass2. split; [|done]. by rewrite Hpass2, Hpass1.
Qed.

(** C9 (as amended). Every extractor lists its items in the order in which
    it visits its candidates, and every list of candidates is in document
    order: the news blocks for akm.py; the [time] elements, timeline by
    timeline, for interfax.py; the links for finam.py (an item stands where
    the first accepted link of its URL stands). The vedomosti extractors
    make two passes: the items of the [time] elements in document order,
    and after them the items that only the links of the section give, in
    document order among themselves. *)
Theorem items_follow_the_passes `{PyLib} :
  (∀ name flt e, find_all name flt e `sublist_of` descendants e)
  ∧ (∀ top,
       ordered_by (find_all (u "div") (class_matches Akm.re_b_section_item) (soup_of top))
                  akm_source (Akm.get_akm_news top))
  ∧ (∀ top, ordered_by (interfax_times top) interfax_source
                       (Interfax.extract_news_from_page top))
  ∧ (∀ top, ordered_by (find_all (u "a") (has_attr (u "href")) (soup_of top)) finam_source
                       (Finam.extract_news_from_page top))
  ∧ (∀ top, two_passes [u "/business/"; u "/finance/"] top
                       (Business.extract_news_from_page top))
  ∧ (∀ top, two_passes [u "/economics/"] top (Economics.extract_news_from_page top)).
Proof.
  split; [apply find_all_in_document_order|].
  split.
  { intros top. unfold Akm.get_akm_news.
    destruct (fold_left_ordered (λ l, l) akm_source Akm.akm_block
                (find_all (u "div") (class_matches Akm.re_b_section_item) (soup_of top)) [])
      as (items & -> & Hord); [|done].
    intros acc block. rewrite akm_block_appends.
    destruct (akm_block_one block) as [->|[item Hitem]];
      [left; by rewrite app_nil_r|right; exists item; by rewrite Hitem]. }
  split; [apply interfax_ordered|].
  split; [apply finam_ordered|].
  split; intros top; apply vedomosti_two_passes.
Qed.
